(** * cryptgo: the coin view's source adapters and its event multiplexer

    A shallow embedding of [pkg/api/getCoinData.go] (the four source
    adapters built on [utils.LoopTick]) and of [pkg/display/coin/coin.go]
    (the [DisplayCoin] select loop), followed by the properties of the
    polling core.

    Data is kept as the Go code has it: [float64] is IEEE 754 binary64
    (the executable specification of the Rocq library, precision 53,
    [emax] 1024), Go maps are [gmap]s, slices are lists updated by index,
    channels are FIFO queues and a [select] resolves through an explicit
    scheduling choice. *)

From Stdlib Require Import ZArith List String Ascii Bool Lia.
From Stdlib Require Import Floats.SpecFloat DecimalString.
From stdpp Require Import gmap strings list fin_maps.

Local Open Scope string_scope.
Local Open Scope Z_scope.
Local Open Scope list_scope.

(* ===================================================================== *)
(** * Go's float64 *)
(* ===================================================================== *)

Module F64.

Definition prec : Z := 53.
Definition emax : Z := 1024.

(** A [float64] value.  Arithmetic is round-to-nearest-even. *)
Definition float64 : Type := spec_float.

Definition add : float64 -> float64 -> float64 := SFadd prec emax.
Definition sub : float64 -> float64 -> float64 := SFsub prec emax.
Definition mul : float64 -> float64 -> float64 := SFmul prec emax.
Definition div : float64 -> float64 -> float64 := SFdiv prec emax.
Definition opp : float64 -> float64 := SFopp.

(** Go's [<], [<=] and [==] on floats: false as soon as a NaN is involved. *)
Definition ltb : float64 -> float64 -> bool := SFltb.
Definition leb : float64 -> float64 -> bool := SFleb.
Definition eqb : float64 -> float64 -> bool := SFeqb.

Definition zero : float64 := S754_zero false.
Definition pinf : float64 := S754_infinity false.
Definition ninf : float64 := S754_infinity true.
Definition nan : float64 := S754_nan.

(** The float64 nearest to an integer (conversion of an integer
    constant such as [100] or [-1]). *)
Definition of_Z (z : Z) : float64 := binary_normalize prec emax z 0 false.

(** Values that a float64 variable can hold: the mantissa is canonical
    and the exponent in range. *)
Definition valid (x : float64) : bool := valid_binary prec emax x.

Definition is_nan (x : float64) : bool :=
  match x with S754_nan => true | _ => false end.

Definition is_finite (x : float64) : bool :=
  match x with S754_zero _ | S754_finite _ _ _ => true | _ => false end.

(** Neither NaN nor below zero: a zero of either sign, or a value whose
    sign bit is clear. *)
Definition nonneg (x : float64) : Prop :=
  match x with
  | S754_zero _ => True
  | S754_infinity s | S754_finite s _ _ => s = false
  | S754_nan => False
  end.

(** Truncation toward zero of a finite value, [None] for NaN and the
    infinities. *)
Definition trunc (x : float64) : option Z :=
  match x with
  | S754_zero _ => Some 0
  | S754_finite s m e =>
      let a := match e with
               | Zneg p => Z.pos m / 2 ^ Z.pos p
               | _ => Z.pos m * 2 ^ e
               end in
      Some (if s then - a else a)
  | _ => None
  end.

(** Go's conversion [int(f)] on a 64-bit platform.  When the truncated
    value does not fit an [int] the language leaves the result to the
    implementation; [unrep] is what the platform returns then. *)
Definition to_int (unrep : float64 -> Z) (x : float64) : Z :=
  match trunc x with
  | Some z => if (- 2 ^ 63 <=? z) && (z <? 2 ^ 63) then z else unrep x
  | None => unrep x
  end.

End F64.

Abbreviation float64 := F64.float64.

(* ===================================================================== *)
(** * Go's errors, fmt and strconv *)
(* ===================================================================== *)

(** An [error] value, identified by its message. *)
Inductive error : Type := Err (msg : string).

Definition ErrSyntax : error := Err "invalid syntax".
Definition ErrRange : error := Err "value out of range".

Module Fmt.

Definition digits (n : Z) : string := NilZero.string_of_uint (N.to_uint (Z.to_N n)).

Definition two_digits (n : Z) : string :=
  if n <? 10 then "0" +:+ digits n else digits n.

(** [round_half_even n d]: the integer nearest to [n / d] for [0 <= n],
    [0 < d], ties to even. *)
Definition round_half_even (n d : Z) : Z :=
  let q := n / d in
  let r := n mod d in
  match 2 * r ?= d with
  | Lt => q
  | Gt => q + 1
  | Eq => if Z.even q then q else q + 1
  end.

(** Hundredths of the magnitude of a finite value, correctly rounded. *)
Definition cents (m : positive) (e : Z) : Z :=
  match e with
  | Zneg p => round_half_even (Z.pos m * 100) (2 ^ Z.pos p)
  | _ => Z.pos m * 2 ^ e * 100
  end.

Definition fixed2 (neg : bool) (c : Z) : string :=
  (if neg then "-" else "") +:+ digits (c / 100) +:+ "." +:+ two_digits (c mod 100).

(** The verb [%.2f] of [fmt.Sprintf] applied to a float64. *)
Definition f2 (x : float64) : string :=
  match x with
  | S754_nan => "NaN"
  | S754_infinity false => "+Inf"
  | S754_infinity true => "-Inf"
  | S754_zero s => fixed2 s 0
  | S754_finite s m e => fixed2 s (cents m e)
  end.

End Fmt.

(** ** strconv.ParseFloat, strings.ToUpper and the platform

    The standard library is outside the repository.  The development is
    parametric in it: [ParseFloat s] stands for [strconv.ParseFloat(s, 64)]
    and returns the value together with the error ([None] is Go's [nil]),
    [ToUpper] for [strings.ToUpper], and [int_unrep] for what the
    platform's [int(f)] yields on a value outside the range of [int]. *)
Class GoLib : Type := {
  ParseFloat : string -> float64 * option error;
  ToUpper : string -> string;
  int_unrep : float64 -> Z
}.

(** The conversion [int(f)] of the platform. *)
Definition int_of_float64 `{GoLib} (x : float64) : Z := F64.to_int int_unrep x.

(** An instance, used to run the model on concrete inputs: decimal
    literals ([-12.5], [3e-2], [inf], [nan]) parsed with correct rounding,
    ASCII upper-casing, and the amd64 conversion (the "integer
    indefinite" value [-2^63]). *)
Module Strconv.

Definition digit_val (c : ascii) : option Z :=
  let n := Z.of_N (N_of_ascii c) in
  if (48 <=? n) && (n <=? 57) then Some (n - 48) else None.

(** Reads the longest prefix of decimal digits: the accumulated value,
    the number of digits read and the rest of the string. *)
Fixpoint read_digits (s : string) (acc cnt : Z) : Z * Z * string :=
  match s with
  | String c r =>
      match digit_val c with
      | Some d => read_digits r (acc * 10 + d) (cnt + 1)
      | None => (acc, cnt, s)
      end
  | EmptyString => (acc, cnt, s)
  end.

Definition read_sign (s : string) : bool * string :=
  match s with
  | String "-" r => (true, r)
  | String "+" r => (false, r)
  | _ => (false, s)
  end.

Definition lower (c : ascii) : ascii :=
  let n := N_of_ascii c in
  if ((65 <=? n) && (n <=? 90))%N then ascii_of_N (n + 32) else c.

Definition upper (c : ascii) : ascii :=
  let n := N_of_ascii c in
  if ((97 <=? n) && (n <=? 122))%N then ascii_of_N (n - 32) else c.

Fixpoint map_string (f : ascii -> ascii) (s : string) : string :=
  match s with
  | EmptyString => EmptyString
  | String c r => String (f c) (map_string f r)
  end.

(** The float64 nearest to [(-1)^neg * m * 10^e]. *)
Definition of_decimal (neg : bool) (m e : Z) : float64 :=
  match m with
  | Z.pos p =>
      match e with
      | Zneg q => F64.div (S754_finite neg p 0) (S754_finite false (10 ^ q) 0)
      | _ => binary_normalize F64.prec F64.emax
               (if neg then - (m * 10 ^ e) else m * 10 ^ e) 0 false
      end
  | _ => S754_zero neg
  end.

(** The optional exponent part [e[+-]ddd]; [None] on a malformed one. *)
Definition read_exponent (s : string) : option (Z * string) :=
  match s with
  | String c r =>
      if Ascii.eqb (lower c) "e" then
        let '(neg, r1) := read_sign r in
        let '(v, cnt, r2) := read_digits r1 0 0 in
        if cnt =? 0 then None else Some (if neg then - v else v, r2)
      else Some (0, s)
  | EmptyString => Some (0, s)
  end.

Definition parse_number (neg : bool) (s : string) : float64 * option error :=
  let '(ip, ni, r1) := read_digits s 0 0 in
  let '(m, nf, r2) :=
    match r1 with
    | String "." r => read_digits r ip 0
    | _ => (ip, 0, r1)
    end in
  if ni + nf =? 0 then (F64.zero, Some ErrSyntax)
  else
    match read_exponent r2 with
    | Some (ex, EmptyString) =>
        let v := of_decimal neg m (ex - nf) in
        if F64.is_finite v then (v, None) else (v, Some ErrRange)
    | _ => (F64.zero, Some ErrSyntax)
    end.

Definition parse (s : string) : float64 * option error :=
  let '(neg, r) := read_sign s in
  let l := map_string lower r in
  if String.eqb l "inf" || String.eqb l "infinity" then (S754_infinity neg, None)
  else if String.eqb (map_string lower s) "nan" then (S754_nan, None)
  else parse_number neg r.

End Strconv.

#[export] Instance go_amd64 : GoLib := {|
  ParseFloat := Strconv.parse;
  ToUpper := Strconv.map_string Strconv.upper;
  int_unrep := fun _ => - 2 ^ 63
|}.

(* ===================================================================== *)
(** * Channels, select and the cancellation context *)
(* ===================================================================== *)

Module Chan.

(** A Go channel of capacity [cap]: the buffered values, oldest first,
    and the values of the senders parked on a full (or unbuffered)
    channel, in the order they arrived. *)
Record t (A : Type) : Type := mk { cap : nat; buf : list A; sendq : list A }.
Arguments mk {A} _ _ _.
Arguments cap {A} _.
Arguments buf {A} _.
Arguments sendq {A} _.

Definition make {A : Type} (n : nat) : t A := mk n [] [].

(** [ch <- v] with no receiver waiting: the value enters the buffer when
    there is room, otherwise its sender parks. *)
Definition send {A : Type} (ch : t A) (v : A) : t A :=
  if (length (buf ch) <? cap ch)%nat
  then mk (cap ch) (buf ch ++ [v]) (sendq ch)
  else mk (cap ch) (buf ch) (sendq ch ++ [v]).

(** The values sent and not yet received. *)
Definition pending {A : Type} (ch : t A) : list A := buf ch ++ sendq ch.

(** A receive can proceed at once. *)
Definition ready {A : Type} (ch : t A) : bool :=
  match pending ch with [] => false | _ :: _ => true end.

(** [<-ch] when it can proceed: the head of the buffer is taken and the
    first parked sender moves its value into the freed slot; on an empty
    buffer the value is taken from the first parked sender. *)
Definition recv {A : Type} (ch : t A) : option (A * t A) :=
  match buf ch, sendq ch with
  | v :: b, w :: q => Some (v, mk (cap ch) (b ++ [w]) q)
  | v :: b, [] => Some (v, mk (cap ch) b [])
  | [], w :: q => Some (w, mk (cap ch) [] q)
  | [], [] => None
  end.

End Chan.

(** The case a [select] statement ends up running. *)
Inductive select_case : Type := CaseDone | CaseComm | CaseDefault.

(** [select { case <-ctx.Done(): ..; case <communication>: ..; default: .. }].
    When both cases can proceed the runtime picks one of them;
    [pick_done] is that pick. *)
Definition select_default (done comm_ready pick_done : bool) : select_case :=
  match done, comm_ready with
  | true, true => if pick_done then CaseDone else CaseComm
  | true, false => CaseDone
  | false, true => CaseComm
  | false, false => CaseDefault
  end.

(** What a guarded send [select { case <-ctx.Done(): ..; case ch <- v: }]
    meets: whether the context is already cancelled and whether the send
    can proceed when the statement is entered, the runtime's pick when
    both hold, and, when neither holds, the event that ends the wait
    ([Some true]: the cancellation, [Some false]: a receiver, [None]:
    nothing ever does). *)
Record SendEnv : Type := {
  se_done : bool;
  se_ready : bool;
  se_pick_done : bool;
  se_wake : option bool
}.

(** The case a guarded send runs, [None] when it blocks for ever. *)
Definition guarded_send (e : SendEnv) : option select_case :=
  match se_done e, se_ready e with
  | true, true => Some (if se_pick_done e then CaseDone else CaseComm)
  | true, false => Some CaseDone
  | false, true => Some CaseComm
  | false, false =>
      match se_wake e with
      | Some true => Some CaseDone
      | Some false => Some CaseComm
      | None => None
      end
  end.

(* ===================================================================== *)
(** * pkg/api: the data carried on the channels *)
(* ===================================================================== *)

(** [api.Asset]: the detail record of one coin, every field a string as
    the provider sends it. *)
Record Asset : Type := {
  ID : string;
  Rank : string;
  Symbol : string;
  Name : string;
  Supply : string;
  MaxSupply : string;
  MarketCapUsd : string;
  VolumeUsd24Hr : string;
  PriceUsd : string;
  ChangePercent24Hr : string;
  Vwap24Hr : string;
  Explorer : string
}.

Definition Asset_zero : Asset := Build_Asset "" "" "" "" "" "" "" "" "" "" "" "".

Record CoinAsset : Type := { Data : Asset; TimeStamp : N }.

Definition CoinAsset_zero : CoinAsset := {| Data := Asset_zero; TimeStamp := 0%N |}.

(** [api.CoinData]; its field [Type] is [Type_] here. *)
Record CoinData : Type := {
  Type_ : string;
  PriceHistory : list float64;
  MinPrice : float64;
  MaxPrice : float64;
  CoinAssetData : CoinAsset;
  Price : string;
  Favourites : gmap string float64
}.

(** One point of [api.CoinHistory.Data]. *)
Record HistoryPoint : Type := { hp_Price : string; hp_Time : Z }.

(** One entry of the batched market response: the fields of the gecko
    client's item that the adapter reads. *)
Record MarketItem : Type := { mi_Symbol : string; mi_CurrentPrice : float64 }.

(** What an adapter does to the outside, in order. *)
Inductive event : Type :=
  | MarketQuery (ids : list string) (perPage : Z)
  | Fetch (url : string)
  | SendData (d : CoinData)
  | SendPrice (p : string).

(** How one invocation of a scheduler callback ends: it returns without
    reporting, it reports an error on [errChan], or it never returns. *)
Inductive cycle_end : Type := Completed | Reported (e : error) | Hung.

Definition is_send (ev : event) : bool :=
  match ev with SendData _ | SendPrice _ => true | _ => false end.

(* ===================================================================== *)
(** * pkg/utils *)
(* ===================================================================== *)

(** The two helpers of [pkg/utils] that the adapter and the page share. *)
Class Utils : Type := {
  MinFloat64 : list float64 -> float64;
  MaxFloat64 : list float64 -> float64
}.

(** Modelled from the spec: [utils.MinFloat64] and [utils.MaxFloat64]
    ([pkg/utils] is not under [src/]) compute the minimum and the maximum
    of the values they are given, comparing with [<] and [>] from the
    first value on.  For no value at all this instance takes the neutral
    elements, [+Inf] and [-Inf]. *)
Definition min_of (a : list float64) : float64 :=
  match a with
  | [] => F64.pinf
  | x :: rest => fold_left (fun m v => if F64.ltb v m then v else m) rest x
  end.

Definition max_of (a : list float64) : float64 :=
  match a with
  | [] => F64.ninf
  | x :: rest => fold_left (fun m v => if F64.ltb m v then v else m) rest x
  end.

#[export] Instance utils_model : Utils := {|
  MinFloat64 := min_of;
  MaxFloat64 := max_of
|}.

Section LoopTick.

Context {St Env : Type}.

(** One tick as the scheduler meets it: whether it finds the context
    cancelled, and what the callback meets when it runs. *)
Record Tick : Type := { tick_cancelled : bool; tick_env : Env }.

Variable f : St -> Env -> St * list event * cycle_end.

(** Modelled from the spec: [utils.LoopTick] ([pkg/utils] is not under
    [src/]).  The callback is invoked once per tick until the
    cancellation signal fires, and the scheduler then returns the
    cancellation's reason, or until the callback reports an error, and
    the scheduler then returns that error at once; one invocation runs at
    a time, so a callback that never returns starves the later ticks.
    The result is the trace of events over the given ticks and what the
    scheduler has returned, if it has. *)
Fixpoint LoopTick (ctx_err : error) (st : St) (ticks : list Tick)
  : list event * option error :=
  match ticks with
  | [] => ([], None)
  | tk :: rest =>
      if tick_cancelled tk then ([], Some ctx_err)
      else
        match f st (tick_env tk) with
        | (st', evs, Completed) =>
            let '(evs', r) := LoopTick ctx_err st' rest in (evs ++ evs', r)
        | (_, evs, Reported e) => (evs, Some e)
        | (_, evs, Hung) => (evs, None)
        end
  end.

End LoopTick.

Arguments Tick : clear implicits.

(* ===================================================================== *)
(** * pkg/api/getCoinData.go: the four adapters *)
(* ===================================================================== *)

Section Adapters.

Context `{GoLib} `{Utils}.

(** The reason [ctx.Err()] carried by the cancellation. *)
Variable ctx_err : error.

(** ** GetFavouritePrices *)

(** What one cycle of the batch adapter meets: the tracked set as it is
    when the cycle starts, the provider's answer to the batched query for
    a list of identifiers and a page size, and the send. *)
Record FavEnv : Type := {
  fe_favourites : gmap string bool;
  fe_market : list string -> Z -> error + list MarketItem;
  fe_send : SendEnv
}.

(** [for _, val := range *coinDataPointer { favouriteData[ToUpper(val.Symbol)] = val.CurrentPrice }] *)
Definition foldPrices (items : list MarketItem) : gmap string float64 :=
  fold_left (fun m val => <[ToUpper (mi_Symbol val) := mi_CurrentPrice val]> m) items ∅.

Definition favouritesData (items : list MarketItem) : CoinData := {|
  Type_ := "FAVOURITES";
  PriceHistory := [];
  MinPrice := F64.zero;
  MaxPrice := F64.zero;
  CoinAssetData := CoinAsset_zero;
  Price := "";
  Favourites := foldPrices items
|}.

(** The callback of [GetFavouritePrices].  The identifiers are the keys
    of [favourites], whatever their value, in the order the map yields
    them. *)
Definition favouritesCycle (st : unit) (env : FavEnv) : unit * list event * cycle_end :=
  let IDs := (map_to_list (fe_favourites env)).*1 in
  let perPage := Z.of_nat (length IDs) in
  match fe_market env IDs perPage with
  | inl err => (st, [MarketQuery IDs perPage], Reported err)
  | inr items =>
      match guarded_send (fe_send env) with
      | Some CaseDone => (st, [MarketQuery IDs perPage], Reported ctx_err)
      | Some _ =>
          (st, [MarketQuery IDs perPage; SendData (favouritesData items)], Completed)
      | None => (st, [MarketQuery IDs perPage], Hung)
      end
  end.

Definition GetFavouritePrices (ticks : list (Tick FavEnv)) : list event * option error :=
  LoopTick favouritesCycle ctx_err tt ticks.

(** ** GetCoinHistory *)

(** The variables the callback of [GetCoinHistory] closes over and
    updates: the interval [i] and the interval channel. *)
Record HistState : Type := {
  interval : string;
  intervalChannel : Chan.t string
}.

(** What one cycle of the history adapter meets: whether the context is
    cancelled when the first [select] runs and the runtime's pick there,
    the outcome of building, sending and decoding the request for a URL,
    and the send. *)
Record HistEnv : Type := {
  he_done : bool;
  he_pick_done : bool;
  he_fetch : string -> error + list HistoryPoint;
  he_send : SendEnv
}.

(** [fmt.Sprintf("https://api.coincap.io/v2/assets/%s/history?interval=%s", id, i)] *)
Definition historyURL (id i : string) : string :=
  "https://api.coincap.io/v2/assets/" +:+ id +:+ "/history?interval=" +:+ i.

(** The non-blocking drain at the head of the cycle: [None] when the
    cancellation case runs, otherwise the state after at most one
    receive. *)
Definition drainInterval (st : HistState) (env : HistEnv) : option HistState :=
  match select_default (he_done env) (Chan.ready (intervalChannel st)) (he_pick_done env) with
  | CaseDone => None
  | CaseComm =>
      match Chan.recv (intervalChannel st) with
      | Some (v, ch) => Some {| interval := v; intervalChannel := ch |}
      | None => Some st
      end
  | CaseDefault => Some st
  end.

(** The loop that aggregates the price history: it stops at the first
    price that does not parse. *)
Fixpoint parsePrices (data : list HistoryPoint) (price : list float64)
  : error + list float64 :=
  match data with
  | [] => inr price
  | v :: rest =>
      match ParseFloat (hp_Price v) with
      | (p, None) => parsePrices rest (price ++ [p])
      | (_, Some err) => inl err
      end
  end.

(** [for i, val := range price { price[i] = val - min }], from index [i]
    for [n] more iterations, on the slice itself. *)
Fixpoint cleanLoop (min : float64) (n i : nat) (price : list float64) : list float64 :=
  match n with
  | O => price
  | S n' =>
      match price !! i with
      | Some val => cleanLoop min n' (S i) (<[i := F64.sub val min]> price)
      | None => price
      end
  end.

Definition cleanPrices (price : list float64) (min : float64) : list float64 :=
  cleanLoop min (length price) 0 price.

(** Lines 185 to 200: the [CoinData] built from the parsed prices. *)
Definition historyData (price : list float64) : CoinData :=
  let min := MinFloat64 price in
  let max := MaxFloat64 price in
  {| Type_ := "HISTORY";
     PriceHistory := cleanPrices price min;
     MinPrice := min;
     MaxPrice := max;
     CoinAssetData := CoinAsset_zero;
     Price := "";
     Favourites := ∅ |}.

(** The callback of [GetCoinHistory]. *)
Definition historyCycle (id : string) (st : HistState) (env : HistEnv)
  : HistState * list event * cycle_end :=
  match drainInterval st env with
  | None => (st, [], Reported ctx_err)
  | Some st1 =>
      let url := historyURL id (interval st1) in
      match he_fetch env url with
      | inl err => (st1, [Fetch url], Reported err)
      | inr data =>
          match parsePrices data [] with
          | inl err => (st1, [Fetch url], Reported err)
          | inr price =>
              match guarded_send (he_send env) with
              | Some CaseDone => (st1, [Fetch url], Reported ctx_err)
              | Some _ => (st1, [Fetch url; SendData (historyData price)], Completed)
              | None => (st1, [Fetch url], Hung)
              end
          end
      end
  end.

(** [GetCoinHistory]: the interval starts at ["d1"]. *)
Definition GetCoinHistory (id : string) (ch : Chan.t string) (ticks : list (Tick HistEnv))
  : list event * option error :=
  LoopTick (historyCycle id) ctx_err {| interval := "d1"; intervalChannel := ch |} ticks.

(** ** GetCoinAsset *)

Record AssetEnv : Type := {
  ae_fetch : string -> error + CoinAsset;
  ae_send : SendEnv
}.

Definition assetURL (id : string) : string :=
  "https://api.coincap.io/v2/assets/" +:+ id +:+ "/".

Definition assetData (data : CoinAsset) : CoinData := {|
  Type_ := "ASSET";
  PriceHistory := [];
  MinPrice := F64.zero;
  MaxPrice := F64.zero;
  CoinAssetData := data;
  Price := "";
  Favourites := ∅
|}.

Definition assetCycle (id : string) (st : unit) (env : AssetEnv)
  : unit * list event * cycle_end :=
  let url := assetURL id in
  match ae_fetch env url with
  | inl err => (st, [Fetch url], Reported err)
  | inr data =>
      match guarded_send (ae_send env) with
      | Some CaseDone => (st, [Fetch url], Reported ctx_err)
      | Some _ => (st, [Fetch url; SendData (assetData data)], Completed)
      | None => (st, [Fetch url], Hung)
      end
  end.

(** [GetCoinAsset]; [new_request] is the error of building the request,
    before the scheduler starts. *)
Definition GetCoinAsset (id : string) (new_request : option error)
  (ticks : list (Tick AssetEnv)) : list event * option error :=
  match new_request with
  | Some err => ([], Some err)
  | None => LoopTick (assetCycle id) ctx_err tt ticks
  end.

(** ** GetLivePrice *)

(** A message that decodes into a [map[string]string] without an error:
    a JSON object, as the members it lists in order (a member whose
    value is [null] stores the zero value, the empty string), or the
    JSON value [null]. *)
Inductive json_message : Type :=
  | JsonObject (members : list (string * string))
  | JsonNull.

(** The outcome of [c.ReadJSON(&msg)]: a message that decodes, an error,
    or a panic on a closed socket.  After an error the adapter stops, so
    that what the failed decoding left in [msg] is not observed. *)
Inductive ReadJSON : Type :=
  | ReadOk (m : json_message)
  | ReadErr (e : error)
  | ReadPanic.

Record LiveEnv : Type := {
  le_read : ReadJSON;
  le_send : SendEnv
}.

(** Decoding an object into a map that already exists keeps the entries
    the object does not mention and overwrites the others, member by
    member. *)
Definition decodeInto (msg : gmap string string) (members : list (string * string))
  : gmap string string :=
  fold_left (fun m kv => <[kv.1 := kv.2]> m) members msg.

(** Decoding a message into [msg]: an object is decoded into the map
    that exists, [null] sets the map to [nil].  A [nil] map reads as the
    empty map, and the next object is decoded into a fresh one. *)
Definition decodeMessage (msg : gmap string string) (m : json_message)
  : gmap string string :=
  match m with
  | JsonObject members => decodeInto msg members
  | JsonNull => ∅
  end.

(** [msg[id]]: the zero value for a missing key. *)
Definition msgIndex (msg : gmap string string) (id : string) : string :=
  default "" (msg !! id).

(** The callback of [GetLivePrice]; its state is the map [msg], made once
    before the scheduler starts.  On a panic the deferred send of
    [finalErr] runs before the recovery sets it, so nothing is reported. *)
Definition liveCycle (id : string) (msg : gmap string string) (env : LiveEnv)
  : gmap string string * list event * cycle_end :=
  match le_read env with
  | ReadErr err => (msg, [], Reported err)
  | ReadPanic => (msg, [], Completed)
  | ReadOk m =>
      let msg' := decodeMessage msg m in
      match guarded_send (le_send env) with
      | Some CaseDone => (msg', [], Reported ctx_err)
      | Some _ => (msg', [SendPrice (msgIndex msg' id)], Completed)
      | None => (msg', [], Hung)
      end
  end.

(** [GetLivePrice]; [dial] is the error of opening the connection. *)
Definition GetLivePrice (id : string) (dial : option error)
  (ticks : list (Tick LiveEnv)) : list event * option error :=
  match dial with
  | Some err => ([], Some err)
  | None => LoopTick (liveCycle id) ctx_err ∅ ticks
  end.

End Adapters.

(* ===================================================================== *)
(** * pkg/display/coin/coin.go: DisplayCoin *)
(* ===================================================================== *)

Definition UP_ARROW : string := "▲".
Definition DOWN_ARROW : string := "▼".

(** ** Slices indexed the Go way: an index out of range panics ([None]) *)

Definition get_index {A : Type} (l : list A) (i : Z) : option A :=
  if 0 <=? i then l !! Z.to_nat i else None.

Definition set_index {A : Type} (l : list A) (i : Z) (v : A) : option (list A) :=
  if (0 <=? i) && (i <? Z.of_nat (length l)) then Some (<[Z.to_nat i := v]> l) else None.

(** [rows[r][c] = v] *)
Definition set_cell (rows : list (list string)) (r c : Z) (v : string)
  : option (list (list string)) :=
  row ← get_index rows r;
  row' ← set_index row c v;
  set_index rows r row'.

(** [rows[r][c]] *)
Definition get_cell (rows : list (list string)) (r c : Z) : option string :=
  row ← get_index rows r;
  get_index row c.

(** ** The widgets *)

(** A table widget, as far as [DisplayCoin] reads and writes it. *)
Record Table : Type := {
  Header : list string;
  Rows : list (list string);
  ShowCursor : bool;
  SelectedRow : Z
}.

Inductive scroll : Type :=
  | ScrollDown | ScrollUp
  | ScrollHalfPageDown | ScrollHalfPageUp
  | ScrollPageDown | ScrollPageUp
  | ScrollTop | ScrollBottom.

(** The collaborators of [DisplayCoin] outside the two files: the unit
    selection and the sort of [pkg/utils] ([SortData] sorts the rows it
    is given in place and is modelled as returning them) and the methods
    of the widgets. *)
Class Collaborators : Type := {
  RoundValues : float64 -> float64 -> list float64 * string;
  SortData : list (list string) -> Z -> bool -> string -> list (list string);
  Scroll : scroll -> Table -> Table;
  UpdateRows : Table -> Table;
  UpdateAll : Table -> Table;
  Resize : Z -> Z -> Table -> Table
}.

(** Collaborators that leave values, rows and tables as they are, to run
    the model on concrete inputs. *)
#[export] Instance plain_collaborators : Collaborators := {|
  RoundValues := fun a b => ([a; b], "");
  SortData := fun rows _ _ _ => rows;
  Scroll := fun _ t => t;
  UpdateRows := fun t => t;
  UpdateAll := fun t => t;
  Resize := fun _ _ t => t
|}.

(** The page made by [NewCoinPage], as far as [DisplayCoin] reads and
    writes it.  The two maps of the value graph are made by the page. *)
Record CoinPage : Type := {
  FavouritesTable : Table;
  PriceBox_Rows : list (list string);
  ValueGraph_Data : gmap string (list float64);
  ValueGraph_Labels : gmap string string;
  DetailsTable_Header : list string;
  DetailsTable_Rows : list (list string);
  VolumeGauge_Percent : Z;
  SupplyChart_Data : list float64;
  SupplyChart_Title : string;
  SupplyChart_BarGap : Z;
  SupplyChart_BarWidth : Z
}.

(** The variables of [DisplayCoin] that its loop reads and writes. *)
Record State : Type := {
  myPage : CoinPage;
  currency : string;
  currencyVal : float64;
  selectCurrency : bool;
  currencyWidget : Table;
  previousKey : string;
  favSortIdx : Z;
  favSortAsc : bool
}.

Definition with_Header (h : list string) (t : Table) : Table :=
  {| Header := h; Rows := Rows t; ShowCursor := ShowCursor t; SelectedRow := SelectedRow t |}.

Definition with_Rows (r : list (list string)) (t : Table) : Table :=
  {| Header := Header t; Rows := r; ShowCursor := ShowCursor t; SelectedRow := SelectedRow t |}.

Definition with_ShowCursor (b : bool) (t : Table) : Table :=
  {| Header := Header t; Rows := Rows t; ShowCursor := b; SelectedRow := SelectedRow t |}.

Definition with_FavouritesTable (t : Table) (p : CoinPage) : CoinPage :=
  {| FavouritesTable := t;
     PriceBox_Rows := PriceBox_Rows p;
     ValueGraph_Data := ValueGraph_Data p;
     ValueGraph_Labels := ValueGraph_Labels p;
     DetailsTable_Header := DetailsTable_Header p;
     DetailsTable_Rows := DetailsTable_Rows p;
     VolumeGauge_Percent := VolumeGauge_Percent p;
     SupplyChart_Data := SupplyChart_Data p;
     SupplyChart_Title := SupplyChart_Title p;
     SupplyChart_BarGap := SupplyChart_BarGap p;
     SupplyChart_BarWidth := SupplyChart_BarWidth p |}.

Definition with_PriceBox_Rows (r : list (list string)) (p : CoinPage) : CoinPage :=
  {| FavouritesTable := FavouritesTable p;
     PriceBox_Rows := r;
     ValueGraph_Data := ValueGraph_Data p;
     ValueGraph_Labels := ValueGraph_Labels p;
     DetailsTable_Header := DetailsTable_Header p;
     DetailsTable_Rows := DetailsTable_Rows p;
     VolumeGauge_Percent := VolumeGauge_Percent p;
     SupplyChart_Data := SupplyChart_Data p;
     SupplyChart_Title := SupplyChart_Title p;
     SupplyChart_BarGap := SupplyChart_BarGap p;
     SupplyChart_BarWidth := SupplyChart_BarWidth p |}.

Definition with_ValueGraph (d : gmap string (list float64)) (l : gmap string string)
  (p : CoinPage) : CoinPage :=
  {| FavouritesTable := FavouritesTable p;
     PriceBox_Rows := PriceBox_Rows p;
     ValueGraph_Data := d;
     ValueGraph_Labels := l;
     DetailsTable_Header := DetailsTable_Header p;
     DetailsTable_Rows := DetailsTable_Rows p;
     VolumeGauge_Percent := VolumeGauge_Percent p;
     SupplyChart_Data := SupplyChart_Data p;
     SupplyChart_Title := SupplyChart_Title p;
     SupplyChart_BarGap := SupplyChart_BarGap p;
     SupplyChart_BarWidth := SupplyChart_BarWidth p |}.

Definition with_DetailsTable (h : list string) (r : list (list string)) (p : CoinPage)
  : CoinPage :=
  {| FavouritesTable := FavouritesTable p;
     PriceBox_Rows := PriceBox_Rows p;
     ValueGraph_Data := ValueGraph_Data p;
     ValueGraph_Labels := ValueGraph_Labels p;
     DetailsTable_Header := h;
     DetailsTable_Rows := r;
     VolumeGauge_Percent := VolumeGauge_Percent p;
     SupplyChart_Data := SupplyChart_Data p;
     SupplyChart_Title := SupplyChart_Title p;
     SupplyChart_BarGap := SupplyChart_BarGap p;
     SupplyChart_BarWidth := SupplyChart_BarWidth p |}.

Definition with_VolumeGauge_Percent (n : Z) (p : CoinPage) : CoinPage :=
  {| FavouritesTable := FavouritesTable p;
     PriceBox_Rows := PriceBox_Rows p;
     ValueGraph_Data := ValueGraph_Data p;
     ValueGraph_Labels := ValueGraph_Labels p;
     DetailsTable_Header := DetailsTable_Header p;
     DetailsTable_Rows := DetailsTable_Rows p;
     VolumeGauge_Percent := n;
     SupplyChart_Data := SupplyChart_Data p;
     SupplyChart_Title := SupplyChart_Title p;
     SupplyChart_BarGap := SupplyChart_BarGap p;
     SupplyChart_BarWidth := SupplyChart_BarWidth p |}.

Definition with_SupplyChart (d : list float64) (title : string) (p : CoinPage) : CoinPage :=
  {| FavouritesTable := FavouritesTable p;
     PriceBox_Rows := PriceBox_Rows p;
     ValueGraph_Data := ValueGraph_Data p;
     ValueGraph_Labels := ValueGraph_Labels p;
     DetailsTable_Header := DetailsTable_Header p;
     DetailsTable_Rows := DetailsTable_Rows p;
     VolumeGauge_Percent := VolumeGauge_Percent p;
     SupplyChart_Data := d;
     SupplyChart_Title := title;
     SupplyChart_BarGap := SupplyChart_BarGap p;
     SupplyChart_BarWidth := SupplyChart_BarWidth p |}.

Definition with_BarGap (g : Z) (p : CoinPage) : CoinPage :=
  {| FavouritesTable := FavouritesTable p;
     PriceBox_Rows := PriceBox_Rows p;
     ValueGraph_Data := ValueGraph_Data p;
     ValueGraph_Labels := ValueGraph_Labels p;
     DetailsTable_Header := DetailsTable_Header p;
     DetailsTable_Rows := DetailsTable_Rows p;
     VolumeGauge_Percent := VolumeGauge_Percent p;
     SupplyChart_Data := SupplyChart_Data p;
     SupplyChart_Title := SupplyChart_Title p;
     SupplyChart_BarGap := g;
     SupplyChart_BarWidth := SupplyChart_BarWidth p |}.

Definition with_myPage (p : CoinPage) (st : State) : State :=
  {| myPage := p; currency := currency st; currencyVal := currencyVal st;
     selectCurrency := selectCurrency st; currencyWidget := currencyWidget st;
     previousKey := previousKey st; favSortIdx := favSortIdx st;
     favSortAsc := favSortAsc st |}.

Definition with_currency (c : string) (v : float64) (st : State) : State :=
  {| myPage := myPage st; currency := c; currencyVal := v;
     selectCurrency := selectCurrency st; currencyWidget := currencyWidget st;
     previousKey := previousKey st; favSortIdx := favSortIdx st;
     favSortAsc := favSortAsc st |}.

Definition with_selectCurrency (b : bool) (st : State) : State :=
  {| myPage := myPage st; currency := currency st; currencyVal := currencyVal st;
     selectCurrency := b; currencyWidget := currencyWidget st;
     previousKey := previousKey st; favSortIdx := favSortIdx st;
     favSortAsc := favSortAsc st |}.

Definition with_currencyWidget (t : Table) (st : State) : State :=
  {| myPage := myPage st; currency := currency st; currencyVal := currencyVal st;
     selectCurrency := selectCurrency st; currencyWidget := t;
     previousKey := previousKey st; favSortIdx := favSortIdx st;
     favSortAsc := favSortAsc st |}.

Definition with_previousKey (k : string) (st : State) : State :=
  {| myPage := myPage st; currency := currency st; currencyVal := currencyVal st;
     selectCurrency := selectCurrency st; currencyWidget := currencyWidget st;
     previousKey := k; favSortIdx := favSortIdx st;
     favSortAsc := favSortAsc st |}.

Definition with_favSort (idx : Z) (asc : bool) (st : State) : State :=
  {| myPage := myPage st; currency := currency st; currencyVal := currencyVal st;
     selectCurrency := selectCurrency st; currencyWidget := currencyWidget st;
     previousKey := previousKey st; favSortIdx := idx;
     favSortAsc := asc |}.

(** How one iteration of the loop ends: the loop goes on with a new
    state, [DisplayCoin] returns an error, or the program panics. *)
Inductive outcome : Type :=
  | Next (st : State)
  | Return (e : error)
  | Panic.

Definition next_or_panic (o : option State) : outcome :=
  match o with Some st => Next st | None => Panic end.

Section Display.

Context `{GoLib} `{Utils} `{Collaborators}.

(** [fmt.Sprintf("%.2f %s", x, cur)] *)
Definition Sprintf_price (x : float64) (cur : string) : string :=
  Fmt.f2 x +:+ " " +:+ cur.

(** [fmt.Sprintf("Price (%s)", cur)] *)
Definition Sprintf_header (cur : string) : string := "Price (" +:+ cur +:+ ")".

(** [favHeader], built once while the currency is ["USD $"]. *)
Definition favHeader : list string := ["Symbol"; Sprintf_header "USD $"].

(** The closure [updateUI] for a terminal of [w] columns and [h] lines.
    Rendering draws the state and leaves it as it is. *)
Definition updateUI (w h : Z) (st : State) : State :=
  let p := myPage st in
  let gap := Z.quot (Z.quot w 3 - 2 * SupplyChart_BarWidth p) 2 in
  let st1 := with_myPage (with_BarGap gap p) st in
  if selectCurrency st1
  then with_currencyWidget (Resize w h (currencyWidget st1)) st1
  else st1.

(** ** [case data := <-priceChannel] *)

Definition applyPrice (data : string) (st : State) : outcome :=
  let p := (ParseFloat data).1 in
  next_or_panic (
    rows ← set_cell (PriceBox_Rows (myPage st)) 0 0
             (Sprintf_price (F64.div p (currencyVal st)) (currency st));
    Some (with_myPage (with_PriceBox_Rows rows (myPage st)) st)).

(** ** [case data := <-dataChannel] *)

(** The rows of the favourites table, in the order the map yields its
    entries; the table is sorted afterwards. *)
Definition favouriteRows (fav : gmap string float64) (cv : float64) : list (list string) :=
  (fun sp : string * float64 => [sp.1; Fmt.f2 (F64.div sp.2 cv)]) <$> map_to_list fav.

Definition applyFavourites (data : CoinData) (st : State) : option State :=
  let ft := FavouritesTable (myPage st) in
  let rows := favouriteRows (Favourites data) (currencyVal st) in
  header ← set_index (Header ft) 1 (Sprintf_header (currency st));
  Some (with_myPage (with_FavouritesTable (with_Rows rows (with_Header header ft)) (myPage st)) st).

Definition applyHistory (data : CoinData) (st : State) : option State :=
  let p := myPage st in
  let price := PriceHistory data in
  let d := <["Value" := price]> (ValueGraph_Data p) in
  let l1 := <["Max" := Sprintf_price (F64.div (MaxFloat64 price) (currencyVal st)) (currency st)]>
              (ValueGraph_Labels p) in
  let l2 := <["Min" := Sprintf_price (F64.div (MinFloat64 price) (currencyVal st)) (currency st)]>
              l1 in
  Some (with_myPage (with_ValueGraph d l2 p) st).

(** The market-cap string; [mCapVals[0]] panics on an empty slice. *)
Definition marketCapString (mCap : float64) (err : option error) (cv : float64) (cur : string)
  : option string :=
  match err with
  | None =>
      let '(mCapVals, units) := RoundValues mCap F64.zero in
      v ← get_index mCapVals 0;
      Some (Fmt.f2 (F64.div v cv) +:+ " " +:+ units +:+ " " +:+ cur)
  | Some _ => Some ""
  end.

Definition vwapString (s : string) (cv : float64) (cur : string) : string :=
  match ParseFloat s with
  | (vwap, None) => Sprintf_price (F64.div vwap cv) cur
  | (_, Some _) => ""
  end.

(** The volume gauge after a detail record: [mCap] is the value the
    market-cap field parsed to, [old] the percentage shown so far. *)
Definition volumeGauge (mCap : float64) (volume : string) (old : Z) : Z :=
  match ParseFloat volume with
  | (vol, None) =>
      if F64.ltb F64.zero mCap then
        let percent := int_of_float64 (F64.mul (F64.div vol mCap) (F64.of_Z 100)) in
        if (percent <=? 100) && (percent >=? 0) then percent else old
      else old
  | (_, Some _) => old
  end.

(** The change indicator of the price box. *)
Definition changeIndicator (changePercent : string) : string :=
  match ParseFloat changePercent with
  | (c, None) =>
      if F64.ltb c F64.zero
      then DOWN_ARROW +:+ " " +:+ Fmt.f2 (F64.mul (F64.of_Z (-1)) c)
      else UP_ARROW +:+ " " +:+ Fmt.f2 c
  | (_, Some _) => "NA"
  end.

Definition applyAsset (data : CoinData) (st : State) : option State :=
  let a := Data (CoinAssetData data) in
  let p := myPage st in
  let cv := currencyVal st in
  let cur := currency st in
  let '(mCap, err) := ParseFloat (MarketCapUsd a) in
  mCapStr ← marketCapString mCap err cv cur;
  let rows := [ ["Symbol"; Symbol a];
                ["Rank"; Rank a];
                ["Market Cap"; mCapStr];
                ["VWAP 24Hr"; vwapString (Vwap24Hr a) cv cur];
                ["Explorer"; Explorer a] ] in
  let labels :=
    match ParseFloat (PriceUsd a) with
    | (price, None) =>
        <["Value" := Sprintf_price (F64.div price cv) cur]> (ValueGraph_Labels p)
    | (_, Some _) => ValueGraph_Labels p
    end in
  let p1 := with_DetailsTable ["Name"; Name a] rows (with_ValueGraph (ValueGraph_Data p) labels p) in
  let p2 := with_VolumeGauge_Percent
              (volumeGauge mCap (VolumeUsd24Hr a) (VolumeGauge_Percent p1)) p1 in
  let p3 :=
    match ParseFloat (Supply a), ParseFloat (MaxSupply a) with
    | (supply, None), (maxSupply, None) =>
        let '(supplyVals, units) := RoundValues supply maxSupply in
        with_SupplyChart supplyVals (" Supply (" +:+ units +:+ ") ") p2
    | _, _ => p2
    end in
  box ← set_cell (PriceBox_Rows p3) 0 1 (changeIndicator (ChangePercent24Hr a));
  Some (with_myPage (with_PriceBox_Rows box p3) st).

(** The sort applied after every data-channel result. *)
Definition resort (st : State) : option State :=
  let ft := FavouritesTable (myPage st) in
  if favSortIdx st =? -1 then
    let rows := SortData (Rows ft) 0 true "FAVOURITES" in
    Some (with_myPage (with_FavouritesTable (with_Rows rows ft) (myPage st)) st)
  else
    let rows := SortData (Rows ft) (favSortIdx st) (favSortAsc st) "FAVOURITES" in
    title ← get_index favHeader (favSortIdx st);
    header ← set_index (Header ft) (favSortIdx st)
               (title +:+ " " +:+ (if favSortAsc st then UP_ARROW else DOWN_ARROW));
    Some (with_myPage (with_FavouritesTable (with_Rows rows (with_Header header ft)) (myPage st)) st).

Definition applyData (data : CoinData) (st : State) : outcome :=
  next_or_panic (
    st1 ← (if String.eqb (Type_ data) "FAVOURITES" then applyFavourites data st
           else if String.eqb (Type_ data) "HISTORY" then applyHistory data st
           else if String.eqb (Type_ data) "ASSET" then applyAsset data st
           else Some st);
    resort st1).

(** ** [case e := <-uiEvents] *)

Definition key_in (k : string) (keys : list string) : bool := existsb (String.eqb k) keys.

(** The navigation keys, the same for the overlay and for the page. *)
Definition scroll_of_key (previous k : string) : option scroll :=
  if key_in k ["j"; "<Down>"] then Some ScrollDown
  else if key_in k ["k"; "<Up>"] then Some ScrollUp
  else if key_in k ["<C-d>"] then Some ScrollHalfPageDown
  else if key_in k ["<C-u>"] then Some ScrollHalfPageUp
  else if key_in k ["<C-f>"] then Some ScrollPageDown
  else if key_in k ["<C-b>"] then Some ScrollPageUp
  else if key_in k ["g"] then (if String.eqb previous "g" then Some ScrollTop else None)
  else if key_in k ["<Home>"] then Some ScrollTop
  else if key_in k ["G"; "<End>"] then Some ScrollBottom
  else None.

(** [<Enter>] on the currency overlay. *)
Definition commitCurrency (st : State) : option State :=
  let cw := currencyWidget st in
  st1 ← (if SelectedRow cw <? Z.of_nat (length (Rows cw)) then
           row ← get_index (Rows cw) (SelectedRow cw);
           r0 ← get_index row 0;
           r1 ← get_index row 1;
           r3 ← get_index row 3;
           match ParseFloat r3 with
           | (v, None) => Some (with_currency (r0 +:+ " " +:+ r1) v st)
           | (_, Some _) => Some (with_currency "USD $" F64.zero st)
           end
         else Some st);
  Some (with_selectCurrency false st1).

(** The second [switch] while the overlay is shown. *)
Definition overlayKey (k : string) (st : State) : option State :=
  match scroll_of_key (previousKey st) k with
  | Some s => Some (with_currencyWidget (Scroll s (currencyWidget st)) st)
  | None =>
      if key_in k ["j"; "<Down>"; "k"; "<Up>"; "<C-d>"; "<C-u>"; "<C-f>"; "<C-b>"; "g";
                   "<Home>"; "G"; "<End>"] then Some st
      else if key_in k ["<Enter>"] then commitCurrency st
      else if key_in k ["<Escape>"] then Some (with_selectCurrency false st)
      else Some st
  end.

(** The sort keys of the page: the column index and the direction. *)
Definition sort_of_key (k : string) : option (Z * bool) :=
  if String.eqb k "1" then Some (0, true)
  else if String.eqb k "2" then Some (1, true)
  else if String.eqb k "<F1>" then Some (0, false)
  else if String.eqb k "<F2>" then Some (1, false)
  else None.

(** The second [switch] while the page is shown, and the update of
    [previousKey]. *)
Definition pageKey (k : string) (st : State) : option State :=
  let ft := with_ShowCursor true (FavouritesTable (myPage st)) in
  st1 ← match scroll_of_key (previousKey st) k with
        | Some s => Some (with_myPage (with_FavouritesTable (Scroll s ft) (myPage st)) st)
        | None =>
            match sort_of_key k with
            | Some (idx, asc) =>
                title ← get_index favHeader idx;
                header ← set_index favHeader idx
                           (title +:+ " " +:+ (if asc then UP_ARROW else DOWN_ARROW));
                let rows := SortData (Rows ft) idx asc "FAVOURITES" in
                Some (with_favSort idx asc
                        (with_myPage
                           (with_FavouritesTable (with_Rows rows (with_Header header ft))
                              (myPage st)) st))
            | None => Some (with_myPage (with_FavouritesTable ft (myPage st)) st)
            end
        end;
  Some (with_previousKey (if String.eqb (previousKey st1) "g" then "" else k) st1).

(** One UI event, on a terminal of [w] columns and [h] lines. *)
Definition applyEvent (w h : Z) (k : string) (st : State) : outcome :=
  let first : outcome :=
    if String.eqb k "<Escape>" then
      (if selectCurrency st then Next st else Return (Err "UI Closed"))
    else if key_in k ["q"; "<C-c>"] then Return (Err "coin UI Closed")
    else if String.eqb k "<Resize>" then Next (updateUI w h st)
    else if String.eqb k "c" then
      Next (updateUI w h
              (with_currencyWidget (UpdateRows (currencyWidget st))
                 (with_selectCurrency true st)))
    else if String.eqb k "C" then
      Next (updateUI w h
              (with_currencyWidget (UpdateAll (currencyWidget st))
                 (with_selectCurrency true st)))
    else Next st in
  match first with
  | Next st1 =>
      next_or_panic (if selectCurrency st1 then overlayKey k st1 else pageKey k st1)
  | other => other
  end.

(** ** The loop *)

(** What one iteration of the [select] loop receives. *)
Inductive input : Type :=
  | CtxDone
  | UiEvent (k : string)
  | PriceUpdate (data : string)
  | DataUpdate (data : CoinData)
  | RefreshTick.

(** One iteration, on a terminal of [w] columns and [h] lines. *)
Definition step (ctx_err : error) (w h : Z) (i : input) (st : State) : outcome :=
  match i with
  | CtxDone => Return ctx_err
  | UiEvent k => applyEvent w h k st
  | PriceUpdate data => applyPrice data st
  | DataUpdate data => applyData data st
  | RefreshTick => Next (updateUI w h st)
  end.

(** The loop over the inputs it receives, in order. *)
Fixpoint loop (ctx_err : error) (w h : Z) (inputs : list input) (st : State) : outcome :=
  match inputs with
  | [] => Next st
  | i :: rest =>
      match step ctx_err w h i st with
      | Next st1 => loop ctx_err w h rest st1
      | other => other
      end
  end.

(** The state [DisplayCoin] enters its loop with, for the page and the
    currency widget its constructors made. *)
Definition initial (page : CoinPage) (widget : Table) (w h : Z) : State :=
  updateUI w h
    {| myPage := page; currency := "USD $"; currencyVal := F64.of_Z 1;
       selectCurrency := false; currencyWidget := widget;
       previousKey := ""; favSortIdx := -1; favSortAsc := false |}.

End Display.

(* ===================================================================== *)
(** * Scenarios *)
(* ===================================================================== *)

(** The channel after two sends that nothing has received yet. *)
Definition sent_twice (n : nat) (a b : string) : Chan.t string :=
  Chan.send (Chan.send (Chan.make n) a) b.

(** An environment in which nothing is cancelled, the provider answers
    with an empty series and the multiplexer is ready to receive. *)
Definition quiet_send : SendEnv :=
  {| se_done := false; se_ready := true; se_pick_done := false; se_wake := None |}.

Definition quiet_env : HistEnv :=
  {| he_done := false; he_pick_done := false;
     he_fetch := fun _ => inr []; he_send := quiet_send |}.

(** A history point with the given price. *)
Definition point (p : string) : HistoryPoint := {| hp_Price := p; hp_Time := 0 |}.

(** A cycle in which nothing is cancelled, the provider answers with the
    given prices and the multiplexer is ready to receive. *)
Definition fetch_env (prices : list string) : HistEnv :=
  {| he_done := false; he_pick_done := false;
     he_fetch := fun _ => inr (point <$> prices); he_send := quiet_send |}.

(** The history adapter before any interval update. *)
Definition idle_state : HistState :=
  {| interval := "d1"; intervalChannel := Chan.make 1 |}.

Definition Canceled : error := Err "context canceled".

(** The context is cancelled while the multiplexer is ready to receive,
    and the runtime picks the send. *)
Definition racing_send : SendEnv :=
  {| se_done := true; se_ready := true; se_pick_done := false; se_wake := None |}.

(** The context is cancelled and no receiver is ready. *)
Definition cancelled_send : SendEnv :=
  {| se_done := true; se_ready := false; se_pick_done := false; se_wake := None |}.

(** A tick the scheduler runs, with the given environment. *)
Definition run_tick {Env : Type} (env : Env) : Tick Env :=
  {| tick_cancelled := false; tick_env := env |}.

(** A cycle of the batch adapter for one tracked coin, answered with one
    entry, with the given send. *)
Definition fav_env (send : SendEnv) : FavEnv :=
  {| fe_favourites := {[ "bitcoin" := true ]};
     fe_market := fun _ _ =>
       inr [ {| mi_Symbol := "btc"; mi_CurrentPrice := F64.of_Z 100 |} ];
     fe_send := send |}.

(** A cycle of the batch adapter whose response lists the bitcoin three
    times, in two spellings, around the ether, while the multiplexer is
    ready to receive. *)
Definition duplicates_env : FavEnv :=
  {| fe_favourites := {[ "bitcoin" := true; "ethereum" := true ]};
     fe_market := fun _ _ =>
       inr [ {| mi_Symbol := "btc"; mi_CurrentPrice := F64.of_Z 1 |};
             {| mi_Symbol := "eth"; mi_CurrentPrice := F64.of_Z 2 |};
             {| mi_Symbol := "BTC"; mi_CurrentPrice := F64.of_Z 3 |};
             {| mi_Symbol := "btc"; mi_CurrentPrice := F64.of_Z 4 |} ];
     fe_send := quiet_send |}.

(** A page as its constructor leaves it: a price box of one row and two
    cells, a favourites table with its two headers, empty graphs. *)
Definition new_table (header : list string) : Table :=
  {| Header := header; Rows := []; ShowCursor := false; SelectedRow := 0 |}.

Definition new_page : CoinPage :=
  {| FavouritesTable := new_table ["Symbol"; "Price"];
     PriceBox_Rows := [[""; ""]];
     ValueGraph_Data := ∅;
     ValueGraph_Labels := ∅;
     DetailsTable_Header := [];
     DetailsTable_Rows := [];
     VolumeGauge_Percent := 0;
     SupplyChart_Data := [];
     SupplyChart_Title := "";
     SupplyChart_BarGap := 0;
     SupplyChart_BarWidth := 8 |}.

(** The state [DisplayCoin] enters its loop with, on a terminal of 120
    columns and 40 lines. *)
Definition start : State := initial new_page (new_table []) 120 40.

(** A detail record with the given market cap, volume and change. *)
Definition asset_of (marketCap volume change : string) : CoinData :=
  assetData
    {| Data := {| ID := "bitcoin"; Rank := "1"; Symbol := "BTC"; Name := "Bitcoin";
                  Supply := "19000000"; MaxSupply := "21000000";
                  MarketCapUsd := marketCap; VolumeUsd24Hr := volume;
                  PriceUsd := "29000.5"; ChangePercent24Hr := change;
                  Vwap24Hr := "28950.25"; Explorer := "https://blockchain.info/" |};
       TimeStamp := 0%N |}.

(** The start state with the volume gauge at [n]. *)
Definition start_with_gauge (n : Z) : State :=
  with_myPage (with_VolumeGauge_Percent n (myPage start)) start.

(** The page in euros, with the currency overlay open on a one-row list
    whose rate field is [rate]. *)
Definition picking (rate : string) : State :=
  with_currencyWidget
    {| Header := []; Rows := [["GBP"; "£"; "British Pound"; rate]];
       ShowCursor := true; SelectedRow := 0 |}
    (with_selectCurrency true
       (with_currency "EUR €" (ParseFloat "0.92").1 start)).

(** A cycle of the live stream adapter that reads the given object while
    the multiplexer is ready to receive. *)
Definition live_env (members : list (string * string)) : LiveEnv :=
  {| le_read := ReadOk (JsonObject members); le_send := quiet_send |}.

(** A cycle of the live stream adapter that reads the message [null]
    while the multiplexer is ready to receive. *)
Definition null_env : LiveEnv :=
  {| le_read := ReadOk JsonNull; le_send := quiet_send |}.

(** A cycle of the live stream adapter in which the read panics on a
    closed socket. *)
Definition panic_env : LiveEnv :=
  {| le_read := ReadPanic; le_send := quiet_send |}.

(** The page in euros, sorted on its price column, ascending. *)
Definition euro_sorted_by_price : State :=
  with_favSort 1 true (with_currency "EUR €" (ParseFloat "0.92").1 start).

(** A snapshot of two tracked coins. *)
Definition two_coins : CoinData :=
  favouritesData [ {| mi_Symbol := "btc"; mi_CurrentPrice := F64.of_Z 100 |};
                   {| mi_Symbol := "eth"; mi_CurrentPrice := F64.of_Z 2 |} ].

(** ** Pages the loop can write to *)

(** The price box has a first row of at least two cells, the favourites
    table at least two headers, and the sort column is none ([-1]) or one
    of the two columns: what [DisplayCoin] indexes without a check. *)
Definition page_ok (st : State) : bool :=
  match PriceBox_Rows (myPage st) with
  | (_ :: _ :: _) :: _ => true
  | _ => false
  end
  && (2 <=? Z.of_nat (length (Header (FavouritesTable (myPage st)))))
  && ((favSortIdx st =? -1) || (favSortIdx st =? 0) || (favSortIdx st =? 1)).

(** The outcome [o] with the overlay flag of its state set to [b]. *)
Definition with_overlay (b : bool) (o : outcome) : outcome :=
  match o with
  | Next st => Next (with_selectCurrency b st)
  | other => other
  end.

(** The two keys that open the currency overlay. *)
Definition opens_overlay (i : input) : bool :=
  match i with
  | UiEvent k => String.eqb k "c" || String.eqb k "C"
  | _ => false
  end.

(* ===================================================================== *)
(** * Properties *)
(* ===================================================================== *)

(** ** The interval channel is drained oldest first *)

Section IntervalUpdates.

Context `{GoLib} `{Utils}.

Variable ctx_err : error.

Lemma pending_sent_twice n a b : Chan.pending (sent_twice n a b) = [a; b].
Proof. destruct n as [|[|n]]; reflexivity. Qed.

(** A receive takes the oldest pending value and leaves the others in
    their order. *)
Lemma recv_pending (ch : Chan.t string) v rest :
  Chan.pending ch = v :: rest ->
  exists ch', Chan.recv ch = Some (v, ch') /\ Chan.pending ch' = rest.
Proof.
  destruct ch as [n b q]. unfold Chan.pending, Chan.recv. simpl.
  destruct b as [|x b]; simpl; intros E.
  - destruct q as [|w q]; [discriminate|]. injection E as -> ->.
    eexists; split; [reflexivity|]. reflexivity.
  - injection E as -> <-. destruct q as [|w q]; eexists; (split; [reflexivity|]); simpl.
    + now rewrite app_nil_r.
    + now rewrite <- app_assoc.
Qed.

Lemma ready_pending (ch : Chan.t string) v rest :
  Chan.pending ch = v :: rest -> Chan.ready ch = true.
Proof. unfold Chan.ready. now intros ->. Qed.

(** When the context is not cancelled, the drain takes the oldest pending
    update as the interval. *)
Lemma drain_oldest st env v rest :
  he_done env = false ->
  Chan.pending (intervalChannel st) = v :: rest ->
  exists st1, drainInterval st env = Some st1 /\ interval st1 = v
              /\ Chan.pending (intervalChannel st1) = rest.
Proof.
  intros Hd Hp. unfold drainInterval. rewrite Hd, (ready_pending _ _ _ Hp). simpl.
  destruct (recv_pending _ _ _ Hp) as (ch' & -> & Hr).
  eexists; split; [reflexivity|]. now split.
Qed.

(** With nothing pending and no cancellation the drain does not block and
    keeps the interval. *)
Lemma drain_none st env :
  he_done env = false ->
  Chan.pending (intervalChannel st) = [] ->
  drainInterval st env = Some st.
Proof.
  intros Hd Hp. unfold drainInterval, Chan.ready. now rewrite Hd, Hp.
Qed.

(** Whatever follows the drain, the cycle starts by fetching the URL of
    the interval the drain left. *)
Lemma historyCycle_fetch id st env st1 :
  drainInterval st env = Some st1 ->
  exists evs e,
    historyCycle ctx_err id st env = (st1, Fetch (historyURL id (interval st1)) :: evs, e).
Proof.
  intros Hd. unfold historyCycle. rewrite Hd.
  destruct (he_fetch env _) as [err|data]; [now eexists _, _|].
  destruct (parsePrices data []) as [err|price]; [now eexists _, _|].
  destruct (guarded_send (he_send env)) as [[| |]|]; now eexists _, _.
Qed.

(** C1, amended: whatever the capacity of the interval channel, when
    [a] then [b] have been sent and not received and the context is not
    cancelled, the next cycle requests the interval [a], the older of the
    two, and leaves [b] pending; the cycle after it, with no new update
    and no cancellation, requests [b].  A drained update overrides the
    interval [i0] held before. *)
Theorem interval_updates_fifo (n : nat) (id i0 a b : string) (env env' : HistEnv) :
  he_done env = false ->
  he_done env' = false ->
  let st := {| interval := i0; intervalChannel := sent_twice n a b |} in
  exists st1 evs e,
    historyCycle ctx_err id st env = (st1, Fetch (historyURL id a) :: evs, e)
    /\ interval st1 = a
    /\ Chan.pending (intervalChannel st1) = [b]
    /\ exists st2 evs' e',
         historyCycle ctx_err id st1 env' = (st2, Fetch (historyURL id b) :: evs', e')
         /\ interval st2 = b
         /\ Chan.pending (intervalChannel st2) = [].
Proof.
  intros Hd Hd' st.
  destruct (drain_oldest st env a [b] Hd (pending_sent_twice n a b)) as (st1 & D1 & I1 & P1).
  destruct (historyCycle_fetch id st env st1 D1) as (evs & e & C1).
  destruct (drain_oldest st1 env' b [] Hd' P1) as (st2 & D2 & I2 & P2).
  destruct (historyCycle_fetch id st1 env' st2 D2) as (evs' & e' & C2).
  rewrite I1 in C1. rewrite I2 in C2.
  exists st1, evs, e. repeat split; try assumption.
  exists st2, evs', e'. now repeat split.
Qed.

End IntervalUpdates.

(** C1, as the claim states it, fails: with ["7 days"] then ["30 days"]
    pending on a one-slot channel, the next cycle requests the interval
    ["7 days"] and not ["30 days"]. *)
Lemma interval_newest_wins_counterexample :
  let st := {| interval := "d1"; intervalChannel := sent_twice 1 "7 days" "30 days" |} in
  let '(st1, evs, _) := historyCycle Canceled "bitcoin" st quiet_env in
  head evs = Some (Fetch (historyURL "bitcoin" "7 days"))
  /\ head evs <> Some (Fetch (historyURL "bitcoin" "30 days"))
  /\ Chan.pending (intervalChannel st1) = ["30 days"].
Proof. vm_compute. repeat split; discriminate. Qed.

(** The scenario of the spec, on a one-slot channel. *)
Lemma interval_updates_fifo_witness :
  he_done quiet_env = false
  /\ exists st1 evs e,
       historyCycle Canceled "bitcoin"
         {| interval := "d1"; intervalChannel := sent_twice 1 "7 days" "30 days" |} quiet_env
       = (st1, Fetch (historyURL "bitcoin" "7 days") :: evs, e).
Proof.
  split; [reflexivity|].
  destruct (interval_updates_fifo Canceled 1 "bitcoin" "d1"
              "7 days" "30 days" quiet_env quiet_env eq_refl eq_refl)
    as (st1 & evs & e & C & _).
  exists st1, evs, e. exact C.
Defined.

(** ** Facts about float64 subtraction and comparison *)

Section Float64Facts.

Lemma sub_self x : F64.is_finite x = true -> F64.sub x x = F64.zero.
Proof.
  destruct x as [s|s| |s m e]; try discriminate; intros _.
  - now destruct s.
  - unfold F64.sub, SFsub. rewrite Z.sub_diag. reflexivity.
Qed.

(* shr keeps a non-negative mantissa non-negative *)
Lemma shr_1_nonneg mrs : 0 <= shr_m mrs -> 0 <= shr_m (shr_1 mrs).
Proof.
  destruct mrs as [m r s]. simpl. destruct m as [|[p|p|]|p]; simpl; lia.
Qed.

Lemma iter_shr_1_nonneg p : forall mrs, 0 <= shr_m mrs -> 0 <= shr_m (SpecFloat.iter_pos shr_1 p mrs).
Proof.
  induction p as [p IH|p IH|]; intros mrs Hm; simpl.
  - apply IH, IH, shr_1_nonneg, Hm.
  - apply IH, IH, Hm.
  - apply shr_1_nonneg, Hm.
Qed.

Lemma shr_nonneg mrs e n : 0 <= shr_m mrs -> 0 <= shr_m (fst (shr mrs e n)).
Proof.
  intros Hm. destruct n; simpl; auto. now apply iter_shr_1_nonneg.
Qed.

Lemma shr_fexp_nonneg m e l : 0 <= m -> 0 <= shr_m (fst (shr_fexp F64.prec F64.emax m e l)).
Proof.
  intros Hm. unfold shr_fexp. apply shr_nonneg. now destruct l as [|[]].
Qed.

Lemma round_nearest_even_nonneg m l : 0 <= m -> 0 <= round_nearest_even m l.
Proof.
  intros Hm. destruct l as [|[]]; simpl; try lia. destruct (Z.even m); lia.
Qed.

Lemma binary_round_aux_nonneg m e l :
  0 <= m -> F64.nonneg (binary_round_aux F64.prec F64.emax false m e l).
Proof.
  intros Hm. unfold binary_round_aux.
  pose proof (shr_fexp_nonneg m e l Hm) as H1.
  destruct (shr_fexp F64.prec F64.emax m e l) as [mrs' e']. simpl in H1.
  pose proof (shr_fexp_nonneg _ e' loc_Exact
                (round_nearest_even_nonneg _ (loc_of_shr_record mrs') H1)) as H2.
  destruct (shr_fexp F64.prec F64.emax _ e' loc_Exact) as [mrs'' e'']. simpl in H2.
  destruct (shr_m mrs'') as [|p|p]; simpl; try lia; auto.
  destruct (e'' <=? _); reflexivity.
Qed.

Lemma binary_normalize_nonneg d e : 0 <= d -> F64.nonneg (binary_normalize F64.prec F64.emax d e false).
Proof.
  intros Hd. destruct d as [|p|p]; simpl; try lia; auto.
  unfold binary_round. destruct (shl_align _ _ _) as [mz ez].
  apply binary_round_aux_nonneg. lia.
Qed.

Lemma digits2_pos_bounds m :
  2 ^ (Z.pos (digits2_pos m) - 1) <= Z.pos m < 2 ^ Z.pos (digits2_pos m).
Proof.
  induction m as [m IH|m IH|]; simpl digits2_pos.
  - rewrite Pos2Z.inj_succ, Z.pow_succ_r by lia.
    replace (Z.succ (Z.pos (digits2_pos m)) - 1) with (Z.succ (Z.pos (digits2_pos m) - 1)) by lia.
    rewrite Z.pow_succ_r by lia. lia.
  - rewrite Pos2Z.inj_succ, Z.pow_succ_r by lia.
    replace (Z.succ (Z.pos (digits2_pos m)) - 1) with (Z.succ (Z.pos (digits2_pos m) - 1)) by lia.
    rewrite Z.pow_succ_r by lia. lia.
  - simpl. lia.
Qed.

Lemma iter_xO_value d : forall m, Z.pos (Pos.iter xO m d) = Z.pos m * 2 ^ Z.pos d.
Proof.
  induction d as [|d IH] using Pos.peano_ind; intros m.
  - simpl. lia.
  - rewrite Pos.iter_succ, Pos2Z.inj_xO, IH, Pos2Z.inj_succ, Z.pow_succ_r by lia. lia.
Qed.

Lemma shl_align_value m e e' :
  e' <= e -> Z.pos (fst (shl_align m e e')) = Z.pos m * 2 ^ (e - e').
Proof.
  intros Hle. unfold shl_align.
  destruct (e' - e) as [|d|d] eqn:E; simpl.
  - replace (e - e') with 0 by lia. simpl. lia.
  - lia.
  - rewrite iter_xO_value. f_equal. f_equal. lia.
Qed.

Lemma valid_finite_bounds s m e :
  F64.valid (S754_finite s m e) = true ->
  - 1074 <= e /\ Z.pos m < 2 ^ 53 /\ (- 1074 < e -> 2 ^ 52 <= Z.pos m).
Proof.
  unfold F64.valid, valid_binary, bounded, canonical_mantissa, fexp, emin, F64.prec, F64.emax.
  intros Hv. apply andb_prop in Hv as [Hc _]. apply Z.eqb_eq in Hc.
  pose proof (digits2_pos_bounds m) as [Hlo Hhi].
  assert (Hd : Z.pos (digits2_pos m) <= 53) by lia.
  split; [lia|]. split.
  - eapply Z.lt_le_trans; [exact Hhi|]. apply Z.pow_le_mono_r; lia.
  - intros He. assert (Z.pos (digits2_pos m) = 53) as Hd53 by lia.
    rewrite Hd53 in Hlo. exact Hlo.
Qed.

(** Aligned mantissas compare as the values do. *)
Lemma aligned_le mx ex my ey :
  - 1074 <= ey -> Z.pos my < 2 ^ 53 -> (- 1074 < ex -> 2 ^ 52 <= Z.pos mx) ->
  match ey ?= ex with
  | Lt => True
  | Eq => (my <= mx)%positive
  | Gt => False
  end ->
  Z.pos (fst (shl_align my ey (Z.min ex ey))) <= Z.pos (fst (shl_align mx ex (Z.min ex ey))).
Proof.
  intros Hey Hmy Hmx Hc.
  rewrite !shl_align_value by lia.
  destruct (Z.compare_spec ey ex) as [->|Hlt|Hgt]; try contradiction.
  - rewrite Z.min_id, Z.sub_diag. simpl. lia.
  - rewrite Z.min_r by lia. rewrite Z.sub_diag. simpl.
    assert (2 ^ 1 <= 2 ^ (ex - ey)) by (apply Z.pow_le_mono_r; lia).
    assert (2 ^ 52 <= Z.pos mx) by (apply Hmx; lia).
    change (2 ^ 1) with 2 in *. change (2 ^ 53) with (2 ^ 52 * 2) in Hmy. nia.
Qed.

Lemma sub_nonneg x y :
  F64.valid x = true -> F64.valid y = true ->
  F64.is_finite x = true -> F64.is_finite y = true ->
  F64.leb y x = true -> F64.nonneg (F64.sub x y).
Proof.
  intros Vx Vy Fx Fy Hle.
  destruct x as [sx|sx| |sx mx ex], y as [sy|sy| |sy my ey]; try discriminate.
  - now destruct sx, sy.
  - destruct sy; [reflexivity | discriminate].
  - destruct sx; [discriminate | reflexivity].
  - apply valid_finite_bounds in Vx as (Hex & Hmx & Hnx).
    apply valid_finite_bounds in Vy as (Hey & Hmy & Hny).
    unfold F64.sub, SFsub. apply binary_normalize_nonneg.
    unfold F64.leb, SFleb, SFcompare in Hle.
    destruct sy, sx; simpl cond_Zopp; try discriminate.
    + (* both negative *)
      assert (Z.pos (fst (shl_align mx ex (Z.min ey ex))) <= Z.pos (fst (shl_align my ey (Z.min ey ex)))).
      { apply aligned_le; try assumption.
        rewrite Z.compare_antisym. destruct (ey ?= ex); simpl in *; try discriminate; auto.
        rewrite Pos.compare_cont_spec in Hle. simpl in Hle.
        destruct (Pos.compare_spec my mx); simpl in Hle; try discriminate; lia. }
      rewrite (Z.min_comm ex ey). revert H. generalize (fst (shl_align mx ex (Z.min ey ex))), (fst (shl_align my ey (Z.min ey ex))). intros; lia.
    + assert (Z.pos (fst (shl_align my ey (Z.min ex ey))) <= Z.pos (fst (shl_align mx ex (Z.min ex ey)))).
      { apply aligned_le; try assumption.
        destruct (ey ?= ex); simpl in *; try discriminate; auto.
        rewrite Pos.compare_cont_spec in Hle. simpl in Hle.
        destruct (Pos.compare_spec my mx); simpl in Hle; try discriminate; lia. }
      revert H. generalize (fst (shl_align mx ex (Z.min ex ey))), (fst (shl_align my ey (Z.min ex ey))). intros; lia.
Qed.

Ltac order_cases :=
  repeat match goal with
  | H : context [PosDef.Pos.compare_cont Eq ?a ?b] |- _ =>
      rewrite (Pos.compare_cont_spec a b Eq) in H; simpl Pos.switch_Eq in H
  | |- context [PosDef.Pos.compare_cont Eq ?a ?b] =>
      rewrite (Pos.compare_cont_spec a b Eq); simpl Pos.switch_Eq
  end;
  repeat match goal with
  | H : context [Z.compare ?a ?b] |- _ => destruct (Z.compare_spec a b); simpl in H
  | H : context [Pos.compare ?a ?b] |- _ => destruct (Pos.compare_spec a b); simpl in H
  | |- context [Z.compare ?a ?b] => destruct (Z.compare_spec a b); simpl
  | |- context [Pos.compare ?a ?b] => destruct (Pos.compare_spec a b); simpl
  end;
  try discriminate; try reflexivity; try lia.

Lemma ltb_false_leb v m :
  F64.is_nan v = false -> F64.is_nan m = false ->
  F64.ltb v m = false -> F64.leb m v = true.
Proof.
  unfold F64.ltb, F64.leb, SFltb, SFleb, SFcompare.
  destruct v as [sv|sv| |sv mv ev], m as [sm|sm| |sm mm em]; simpl; intros Hv Hm Hlt;
    try discriminate; try reflexivity;
    try (destruct sv); try (destruct sm); simpl in *; try discriminate; try reflexivity;
    order_cases.
Qed.

Lemma ltb_leb_trans v m w :
  F64.ltb v m = true -> F64.leb m w = true -> F64.leb v w = true.
Proof.
  unfold F64.ltb, F64.leb, SFltb, SFleb, SFcompare.
  destruct v as [sv|sv| |sv mv ev], m as [sm|sm| |sm mm em], w as [sw|sw| |sw mw ew];
    simpl; intros H1 H2; try discriminate; try reflexivity;
    try (destruct sv); try (destruct sm); try (destruct sw);
    simpl in *; try discriminate; try reflexivity; order_cases.
Qed.

Lemma leb_trans v m w :
  F64.leb v m = true -> F64.leb m w = true -> F64.leb v w = true.
Proof.
  unfold F64.leb, SFleb, SFcompare.
  destruct v as [sv|sv| |sv mv ev], m as [sm|sm| |sm mm em], w as [sw|sw| |sw mw ew];
    simpl; intros H1 H2; try discriminate; try reflexivity;
    try (destruct sv); try (destruct sm); try (destruct sw);
    simpl in *; try discriminate; try reflexivity; order_cases.
Qed.

Lemma leb_refl v : F64.is_nan v = false -> F64.leb v v = true.
Proof.
  unfold F64.leb, SFleb, SFcompare.
  destruct v as [s|s| |s m e]; simpl; intros Hn; try discriminate; try reflexivity;
    destruct s; try reflexivity; rewrite Z.compare_refl, Pos.compare_cont_refl; reflexivity.
Qed.

Lemma nonneg_leb_zero x : F64.nonneg x -> F64.leb F64.zero x = true.
Proof. destruct x as [s|s| |s m e]; simpl; intros Hx; subst; try reflexivity; contradiction. Qed.

Lemma ltb_leb v m : F64.ltb v m = true -> F64.leb v m = true.
Proof.
  unfold F64.ltb, F64.leb, SFltb, SFleb. now destruct (SFcompare v m) as [[]|].
Qed.

(** The fold of [min_of] returns one of the values it has seen, below
    all of them, when none is NaN. *)
Lemma fold_min_spec rest : forall acc,
  F64.is_nan acc = false ->
  Forall (fun x => F64.is_nan x = false) rest ->
  let r := fold_left (fun m v => if F64.ltb v m then v else m) rest acc in
  (r = acc \/ r ∈ rest) /\ F64.leb r acc = true
  /\ Forall (fun x => F64.leb r x = true) rest.
Proof.
  induction rest as [|v rest IH]; intros acc Hacc Hrest; simpl.
  - split; [now left|]. split; [now apply leb_refl | constructor].
  - apply Forall_cons in Hrest as [Hv Hrest].
    destruct (F64.ltb v acc) eqn:Hlt.
    + destruct (IH v Hv Hrest) as (Hin & Hle & Hall).
      split; [right; destruct Hin as [->|Hin]; [left | now right] |].
      split; [eapply leb_trans; [exact Hle | now apply ltb_leb] |].
      now constructor.
    + destruct (IH acc Hacc Hrest) as (Hin & Hle & Hall).
      split; [destruct Hin as [->|Hin]; [now left | right; now right] |].
      split; [exact Hle|]. constructor; [|exact Hall].
      eapply leb_trans; [exact Hle | now apply ltb_false_leb].
Qed.

(** The model of [utils.MinFloat64] computes the minimum of a series
    without NaN: one of its values, below all of them. *)
Lemma min_of_minimum (a : list float64) :
  a <> [] ->
  Forall (fun x => F64.is_nan x = false) a ->
  min_of a ∈ a /\ forall x, x ∈ a -> F64.leb (min_of a) x = true.
Proof.
  destruct a as [|x0 rest]; [congruence|]. intros _ Ha.
  apply Forall_cons in Ha as [H0 Hrest]. simpl.
  destruct (fold_min_spec rest x0 H0 Hrest) as (Hin & Hle & Hall).
  split.
  - destruct Hin as [->|Hin]; [left | now right].
  - intros x Hx. apply elem_of_cons in Hx as [->|Hx]; [exact Hle|].
    rewrite Forall_forall in Hall. now apply Hall.
Qed.

(** Multiplying by [-1] is exact: it only flips the sign. *)
Lemma digits2_pos_iter_xO k : forall m,
  Z.pos (digits2_pos (Pos.iter xO m k)) = Z.pos (digits2_pos m) + Z.pos k.
Proof.
  induction k as [|k IH] using Pos.peano_ind; intros m.
  - simpl. lia.
  - rewrite Pos.iter_succ. simpl digits2_pos. rewrite Pos2Z.inj_succ, IH. lia.
Qed.

Lemma valid_canonical s m e :
  F64.valid (S754_finite s m e) = true ->
  fexp F64.prec F64.emax (Z.pos (digits2_pos m) + e) = e /\ e <= F64.emax - F64.prec.
Proof.
  unfold F64.valid, valid_binary, bounded, canonical_mantissa.
  intros Hv. apply andb_prop in Hv as [Hc Hb].
  apply Z.eqb_eq in Hc. apply Z.leb_le in Hb. now split.
Qed.

Lemma mul_neg_one c :
  F64.valid c = true -> F64.mul (F64.of_Z (-1)) c = F64.opp c.
Proof.
  intros Hv. destruct c as [s|s| |s m e]; try reflexivity.
  destruct (valid_canonical s m e Hv) as [Hc Hb].
  change (F64.of_Z (-1)) with (S754_finite true 4503599627370496 (-52)).
  unfold F64.mul, SFmul, F64.opp, SFopp.
  change (Pos.mul 4503599627370496 m) with (Pos.iter xO m 52).
  unfold binary_round_aux, shr_fexp. unfold Zdigits2.
  rewrite digits2_pos_iter_xO.
  replace (Z.pos (digits2_pos m) + 52 + (-52 + e)) with (Z.pos (digits2_pos m) + e) by lia.
  rewrite Hc. replace (e - (-52 + e)) with 52 by lia.
  cbn -[fexp Z.add Z.sub Z.leb digits2_pos].
  replace (-52 + e + 52) with e by lia.
  rewrite Hc, Z.sub_diag. cbn -[Z.leb Z.sub].
  apply Z.leb_le in Hb. rewrite Hb.
  now destruct s.
Qed.

End Float64Facts.

(** ** The history result carries the series shifted by its minimum *)

Section HistorySeries.

Context `{GoLib} `{Utils}.

Variable ctx_err : error.

(** The in-place loop subtracts [min] from every point, once. *)
Lemma cleanLoop_app min done todo :
  cleanLoop min (length todo) (length done) (done ++ todo)
  = done ++ map (fun v => F64.sub v min) todo.
Proof.
  revert done. induction todo as [|v todo IH]; intros done; simpl.
  - reflexivity.
  - rewrite lookup_app_r by lia. rewrite Nat.sub_diag. simpl.
    rewrite insert_app_r_alt by lia. rewrite Nat.sub_diag. simpl.
    specialize (IH (done ++ [F64.sub v min])).
    rewrite length_app in IH. simpl in IH. rewrite Nat.add_1_r in IH.
    rewrite <- app_assoc in IH. simpl in IH. rewrite IH.
    now rewrite <- app_assoc.
Qed.

Lemma cleanPrices_map price min :
  cleanPrices price min = map (fun v => F64.sub v min) price.
Proof. exact (cleanLoop_app min [] price). Qed.

(** The parsing loop succeeds exactly on the series whose points all
    parse, and yields their values in order. *)
Lemma parsePrices_acc data : forall acc price,
  parsePrices data acc = inr price ->
  exists parsed, price = acc ++ parsed
    /\ Forall2 (fun v p => ParseFloat (hp_Price v) = (p, None)) data parsed.
Proof.
  induction data as [|v data IH]; intros acc price E; simpl in E.
  - injection E as <-. exists []. split; [now rewrite app_nil_r | constructor].
  - destruct (ParseFloat (hp_Price v)) as [p [err|]] eqn:P; [discriminate|].
    destruct (IH _ _ E) as (parsed & -> & F).
    exists (p :: parsed). split; [now rewrite <- app_assoc | now constructor].
Qed.

Lemma parsePrices_spec data price :
  parsePrices data [] = inr price ->
  Forall2 (fun v p => ParseFloat (hp_Price v) = (p, None)) data price.
Proof. intros E. now destruct (parsePrices_acc _ _ _ E) as (parsed & -> & F). Qed.

(** When the prices are finite and [min] is their minimum, the shifted
    series contains a zero and nothing below zero. *)
Lemma shifted_series_nonneg (price : list float64) (min : float64) :
  Forall (fun v => F64.valid v = true /\ F64.is_finite v = true) price ->
  min ∈ price ->
  (forall v, v ∈ price -> F64.leb min v = true) ->
  F64.zero ∈ map (fun v => F64.sub v min) price
  /\ Forall (fun s => F64.leb F64.zero s = true) (map (fun v => F64.sub v min) price).
Proof.
  intros Hfin Hin Hle. rewrite Forall_forall in Hfin.
  destruct (Hfin _ Hin) as [Vm Fm]. split.
  - rewrite <- (sub_self min Fm). now apply (list_elem_of_fmap_2 (fun v => F64.sub v min)).
  - rewrite Forall_forall. intros s Hs.
    apply list_elem_of_fmap in Hs as (v & -> & Hv).
    destruct (Hfin _ Hv) as [Vv Fv].
    apply nonneg_leb_zero, sub_nonneg; auto.
Qed.

(** C2, amended: when a cycle of the history adapter fetches a series,
    parses it to [price] and sends, the result it sends carries [price]
    with the minimum subtracted from every point by float64 subtraction,
    in the same order, together with the minimum and the maximum of
    [price] as [utils.MinFloat64] and [utils.MaxFloat64] return them.
    When the prices are finite and that minimum is one of them and below
    all of them, the sent series contains a zero and no value below
    zero.  Nothing is said of [series[i] + min == S[i]]. *)
Theorem history_result_zeroed (id : string) (st st1 : HistState) (env : HistEnv)
  (data : list HistoryPoint) (price : list float64) :
  drainInterval st env = Some st1 ->
  he_fetch env (historyURL id (interval st1)) = inr data ->
  parsePrices data [] = inr price ->
  guarded_send (he_send env) = Some CaseComm ->
  let d := historyData price in
  historyCycle ctx_err id st env
    = (st1, [Fetch (historyURL id (interval st1)); SendData d], Completed)
  /\ Forall2 (fun v p => ParseFloat (hp_Price v) = (p, None)) data price
  /\ Type_ d = "HISTORY"
  /\ PriceHistory d = map (fun v => F64.sub v (MinFloat64 price)) price
  /\ MinPrice d = MinFloat64 price
  /\ MaxPrice d = MaxFloat64 price
  /\ (forall i v, price !! i = Some v ->
        PriceHistory d !! i = Some (F64.sub v (MinPrice d)))
  /\ (Forall (fun v => F64.valid v = true /\ F64.is_finite v = true) price ->
      MinFloat64 price ∈ price ->
      (forall v, v ∈ price -> F64.leb (MinFloat64 price) v = true) ->
      F64.zero ∈ PriceHistory d
      /\ Forall (fun s => F64.leb F64.zero s = true) (PriceHistory d)).
Proof.
  intros Hd Hf Hp Hs d.
  assert (Hm : PriceHistory d = map (fun v => F64.sub v (MinFloat64 price)) price)
    by apply cleanPrices_map.
  split; [unfold historyCycle; now rewrite Hd, Hf, Hp, Hs|].
  split; [now apply parsePrices_spec|].
  split; [reflexivity|]. split; [exact Hm|]. split; [reflexivity|]. split; [reflexivity|].
  split.
  - intros i v Hi. rewrite Hm. change (map ?f ?l) with (f <$> l).
    rewrite list_lookup_fmap, Hi. reflexivity.
  - intros Hfin Hin Hle. rewrite Hm. now apply shifted_series_nonneg.
Qed.

End HistorySeries.

(** C2, as the claim states it, fails: for the prices ["0.03"] and
    ["0.3"] the sent series holds [0.3 - 0.03] at index 1, and adding the
    transported minimum back gives [0.30000000000000004], which is not
    the fetched [0.3]. *)
Lemma history_reconstruction_counterexample :
  exists d s x,
    historyCycle Canceled "bitcoin" idle_state (fetch_env ["0.03"; "0.3"])
      = (idle_state, [Fetch (historyURL "bitcoin" "d1"); SendData d], Completed)
    /\ PriceHistory d !! 1%nat = Some s
    /\ ParseFloat "0.3" = (x, None)
    /\ F64.eqb (F64.add s (MinPrice d)) x = false
    /\ Fmt.f2 (F64.mul (F64.add s (MinPrice d)) (F64.of_Z (10 ^ 17)))
         = "30000000000000004.00".
Proof.
  eexists _, _, _. split; [vm_compute; reflexivity|].
  split; [vm_compute; reflexivity|]. split; [vm_compute; reflexivity|].
  split; vm_compute; reflexivity.
Qed.

(** The series ["100"], ["150.5"], ["120"]: the sent series is
    [0], [50.5], [20], with 100 and 150.5 as minimum and maximum. *)
Lemma history_result_zeroed_witness :
  let env := fetch_env ["100"; "150.5"; "120"] in
  let price := [F64.of_Z 100; (ParseFloat "150.5").1; F64.of_Z 120] in
  drainInterval idle_state env = Some idle_state
  /\ parsePrices (point <$> ["100"; "150.5"; "120"]) [] = inr price
  /\ guarded_send (he_send env) = Some CaseComm
  /\ PriceHistory (historyData price)
      = [F64.zero; (ParseFloat "50.5").1; F64.of_Z 20]
  /\ Forall (fun s => F64.leb F64.zero s = true) (PriceHistory (historyData price)).
Proof.
  intros env price.
  assert (Hd : drainInterval idle_state env = Some idle_state) by reflexivity.
  assert (Hp : parsePrices (point <$> ["100"; "150.5"; "120"]) [] = inr price)
    by (vm_compute; reflexivity).
  assert (Hs : guarded_send (he_send env) = Some CaseComm) by reflexivity.
  destruct (history_result_zeroed Canceled "bitcoin" idle_state idle_state env
              (point <$> ["100"; "150.5"; "120"]) price Hd eq_refl Hp Hs)
    as (_ & _ & _ & Hm & _ & _ & _ & Hz).
  split; [exact Hd|]. split; [exact Hp|]. split; [exact Hs|].
  split; [rewrite Hm; vm_compute; reflexivity|].
  apply Hz.
  - repeat constructor.
  - apply (proj1 (min_of_minimum price ltac:(discriminate) ltac:(repeat constructor))).
  - apply (proj2 (min_of_minimum price ltac:(discriminate) ltac:(repeat constructor))).
Defined.

(** ** A send that observes the cancellation *)

Section Cancellation.

Context `{GoLib} `{Utils}.

Variable ctx_err : error.

(** The guarded send runs the cancellation case whenever the context is
    cancelled and the send cannot proceed at once, and whenever the
    cancellation is what ends its wait. *)
Lemma guarded_send_cancelled (e : SendEnv) :
  (se_done e = true /\ se_ready e = false)
  \/ (se_done e = false /\ se_ready e = false /\ se_wake e = Some true) ->
  guarded_send e = Some CaseDone.
Proof.
  unfold guarded_send. intros [[-> ->]|(-> & -> & ->)]; reflexivity.
Qed.

(** It runs the send only if the send can proceed or a receiver ends the
    wait. *)
Lemma guarded_send_comm (e : SendEnv) :
  guarded_send e = Some CaseComm ->
  se_ready e = true \/ (se_done e = false /\ se_wake e = Some false).
Proof.
  unfold guarded_send.
  destruct (se_done e), (se_ready e), (se_wake e) as [[]|]; simpl; intros E;
    try discriminate; auto.
Qed.

(** A reported error stops the scheduler: the later ticks do not run. *)
Lemma LoopTick_reported {St Env : Type} (f : St -> Env -> St * list event * cycle_end)
  (st st' : St) (tk : Tick Env) (rest : list (Tick Env)) evs e :
  tick_cancelled tk = false ->
  f st (tick_env tk) = (st', evs, Reported e) ->
  LoopTick f ctx_err st (tk :: rest) = (evs, Some e).
Proof. intros Hc Hf. simpl. now rewrite Hc, Hf. Qed.

(** C3, amended: in every adapter, the cycle whose guarded send runs the
    cancellation case sends nothing and reports the cancellation reason,
    and the scheduler returns that reason without running the ticks that
    follow, so that no send follows.  This is so in the batch adapter,
    the history adapter, the detail adapter and the live stream adapter,
    once the cycle has reached its send. *)
Theorem cancelled_send_stops_adapter :
  (forall st (tk : Tick FavEnv) rest items,
      tick_cancelled tk = false ->
      fe_market (tick_env tk) (map_to_list (fe_favourites (tick_env tk))).*1
        (Z.of_nat (length (map_to_list (fe_favourites (tick_env tk))).*1)) = inr items ->
      guarded_send (fe_send (tick_env tk)) = Some CaseDone ->
      exists evs, LoopTick (favouritesCycle ctx_err) ctx_err st (tk :: rest)
                  = (evs, Some ctx_err)
                  /\ Forall (fun ev => is_send ev = false) evs)
  /\ (forall id st st1 (tk : Tick HistEnv) rest data price,
      tick_cancelled tk = false ->
      drainInterval st (tick_env tk) = Some st1 ->
      he_fetch (tick_env tk) (historyURL id (interval st1)) = inr data ->
      parsePrices data [] = inr price ->
      guarded_send (he_send (tick_env tk)) = Some CaseDone ->
      exists evs, LoopTick (historyCycle ctx_err id) ctx_err st (tk :: rest)
                  = (evs, Some ctx_err)
                  /\ Forall (fun ev => is_send ev = false) evs)
  /\ (forall id st (tk : Tick AssetEnv) rest data,
      tick_cancelled tk = false ->
      ae_fetch (tick_env tk) (assetURL id) = inr data ->
      guarded_send (ae_send (tick_env tk)) = Some CaseDone ->
      exists evs, LoopTick (assetCycle ctx_err id) ctx_err st (tk :: rest)
                  = (evs, Some ctx_err)
                  /\ Forall (fun ev => is_send ev = false) evs)
  /\ (forall id msg (tk : Tick LiveEnv) rest members,
      tick_cancelled tk = false ->
      le_read (tick_env tk) = ReadOk members ->
      guarded_send (le_send (tick_env tk)) = Some CaseDone ->
      exists evs, LoopTick (liveCycle ctx_err id) ctx_err msg (tk :: rest)
                  = (evs, Some ctx_err)
                  /\ Forall (fun ev => is_send ev = false) evs).
Proof.
  repeat split.
  - intros st tk rest items Hc Hm Hs. eexists. split.
    + eapply LoopTick_reported; [exact Hc|]. unfold favouritesCycle. now rewrite Hm, Hs.
    + repeat constructor.
  - intros id st st1 tk rest data price Hc Hd Hf Hp Hs. eexists. split.
    + eapply LoopTick_reported; [exact Hc|]. unfold historyCycle.
      now rewrite Hd, Hf, Hp, Hs.
    + repeat constructor.
  - intros id st tk rest data Hc Hf Hs. eexists. split.
    + eapply LoopTick_reported; [exact Hc|]. unfold assetCycle. now rewrite Hf, Hs.
    + repeat constructor.
  - intros id msg tk rest members Hc Hr Hs. eexists. split.
    + eapply LoopTick_reported; [exact Hc|]. unfold liveCycle. now rewrite Hr, Hs.
    + repeat constructor.
Qed.

End Cancellation.

(** C3, as the claim states it, fails: when the cancellation has fired
    and the multiplexer is ready to receive at the same moment, the
    [select] may pick the send, and the batch adapter then sends its
    snapshot after the cancellation. *)
Lemma send_after_cancellation_counterexample :
  se_done (fe_send (fav_env racing_send)) = true
  /\ exists d r,
       GetFavouritePrices Canceled [run_tick (fav_env racing_send)]
       = ([MarketQuery ["bitcoin"] 1; SendData d], r).
Proof. split; [reflexivity|]. eexists _, _. vm_compute. reflexivity. Qed.

(** The same cycle when no receiver is ready: nothing is sent and the
    adapter returns the cancellation reason. *)
Example cancelled_send_stops_batch_adapter :
  GetFavouritePrices Canceled [run_tick (fav_env cancelled_send); run_tick (fav_env quiet_send)]
  = ([MarketQuery ["bitcoin"] 1], Some Canceled).
Proof. vm_compute. reflexivity. Qed.

(** ** The snapshot keeps the last price of every symbol *)

Section Snapshot.

Context `{GoLib} `{Utils}.

Variable ctx_err : error.

Lemma foldPrices_snoc items v :
  foldPrices (items ++ [v])
  = <[ToUpper (mi_Symbol v) := mi_CurrentPrice v]> (foldPrices items).
Proof. unfold foldPrices. now rewrite fold_left_app. Qed.

(** The fold of a batch response maps a key [k] to a price [p] exactly
    when some entry of the response has the symbol that upper-cases to
    [k] and the price [p], and no later entry has a symbol that
    upper-cases to [k]; its keys are the upper-cased symbols of the
    response. *)
Lemma foldPrices_last_write_wins (items : list MarketItem) :
  (forall k p,
      foldPrices items !! k = Some p <->
      exists before v after,
        items = before ++ v :: after
        /\ ToUpper (mi_Symbol v) = k
        /\ mi_CurrentPrice v = p
        /\ Forall (fun w => ToUpper (mi_Symbol w) <> k) after)
  /\ (forall k, k ∈ dom (foldPrices items) <->
               exists v, v ∈ items /\ ToUpper (mi_Symbol v) = k).
Proof.
  split.
  - induction items as [|v items IH] using rev_ind; intros k p.
    + unfold foldPrices. simpl. rewrite lookup_empty. split; [discriminate|].
      intros (before & v & after & E & _). now destruct before.
    + rewrite foldPrices_snoc.
      destruct (decide (ToUpper (mi_Symbol v) = k)) as [Hk|Hk].
      * rewrite <- Hk, lookup_insert_eq. split.
        -- intros [= <-]. exists items, v, []. repeat split. constructor.
        -- intros (before & w & after & E & Hw & Hp & Hafter).
           destruct after as [|a after _] using rev_ind.
           ++ apply app_inj_tail in E as [_ ->]. now rewrite Hp.
           ++ rewrite app_comm_cons, app_assoc in E. apply app_inj_tail in E as [_ ->].
              apply Forall_app in Hafter as [_ Ha]. apply Forall_cons in Ha as [Ha _].
              congruence.
      * rewrite lookup_insert_ne by exact Hk. rewrite IH. split.
        -- intros (before & w & after & -> & Hw & Hp & Hafter).
           exists before, w, (after ++ [v]). rewrite <- app_assoc. repeat split; auto.
           apply Forall_app. split; [exact Hafter|]. now constructor.
        -- intros (before & w & after & E & Hw & Hp & Hafter).
           destruct after as [|a after _] using rev_ind.
           ++ apply app_inj_tail in E as [_ ->]. congruence.
           ++ rewrite app_comm_cons, app_assoc in E. apply app_inj_tail in E as [-> ->].
              exists before, w, after. repeat split; auto.
              now apply Forall_app in Hafter as [Ha _].
  - induction items as [|v items IH] using rev_ind; intros k.
    + unfold foldPrices. simpl. rewrite dom_empty_L. split; [set_solver|].
      intros (v & Hv & _). now apply elem_of_nil in Hv.
    + rewrite foldPrices_snoc, dom_insert_L, elem_of_union, elem_of_singleton, IH.
      split.
      * intros [->|(w & Hw & Hk)].
        -- exists v. split; [apply elem_of_app; right; now left | reflexivity].
        -- exists w. split; [apply elem_of_app; now left | exact Hk].
      * intros (w & Hw & Hk). apply elem_of_app in Hw as [Hw|Hw].
        -- right. now exists w.
        -- left. apply list_elem_of_singleton in Hw. now subst.
Qed.

(** C4: when the provider answers the batched query of a cycle with a
    response and the send of the cycle goes through, the batch adapter
    emits in that cycle one result, of type ["FAVOURITES"], and no
    other.  The snapshot it carries maps a key [k] to a price [p]
    exactly when some entry of the response has the symbol that
    upper-cases to [k] and the price [p] and no later entry has a symbol
    that upper-cases to [k]: one price for every upper-cased symbol, the
    last one in response order, duplicates included; its keys are the
    upper-cased symbols of the response.  The adapter, run on a tick
    that is not cancelled, starts its trace with the query and that
    result. *)
Theorem snapshot_last_write_wins (st : unit) (env : FavEnv) (items : list MarketItem)
  (c : select_case) :
  let IDs := (map_to_list (fe_favourites env)).*1 in
  let perPage := Z.of_nat (length IDs) in
  fe_market env IDs perPage = inr items ->
  guarded_send (fe_send env) = Some c ->
  c <> CaseDone ->
  exists d,
    favouritesCycle ctx_err st env = (st, [MarketQuery IDs perPage; SendData d], Completed)
    /\ (forall rest,
          exists evs r,
            GetFavouritePrices ctx_err ({| tick_cancelled := false; tick_env := env |} :: rest)
            = (MarketQuery IDs perPage :: SendData d :: evs, r))
    /\ Type_ d = "FAVOURITES"
    /\ (forall k p,
          Favourites d !! k = Some p <->
          exists before v after,
            items = before ++ v :: after
            /\ ToUpper (mi_Symbol v) = k
            /\ mi_CurrentPrice v = p
            /\ Forall (fun w => ToUpper (mi_Symbol w) <> k) after)
    /\ (forall k, k ∈ dom (Favourites d) <->
                 exists v, v ∈ items /\ ToUpper (mi_Symbol v) = k).
Proof.
  intros IDs perPage Hm Hs Hc.
  assert (Hcycle : favouritesCycle ctx_err st env
                   = (st, [MarketQuery IDs perPage; SendData (favouritesData items)],
                      Completed)).
  { unfold favouritesCycle. fold IDs. fold perPage. rewrite Hm, Hs.
    destruct c; [now elim Hc|reflexivity..]. }
  exists (favouritesData items). split; [exact Hcycle|]. split.
  - intros rest. unfold GetFavouritePrices. destruct st. simpl LoopTick.
    rewrite Hcycle.
    destruct (LoopTick (favouritesCycle ctx_err) ctx_err tt rest) as [evs r].
    now exists evs, r.
  - split; [reflexivity|]. exact (foldPrices_last_write_wins items).
Qed.

End Snapshot.

(** A response that lists ["btc"] twice and ["BTC"] once: one entry, with
    the last price. *)
Example snapshot_duplicates :
  foldPrices [ {| mi_Symbol := "btc"; mi_CurrentPrice := F64.of_Z 1 |};
               {| mi_Symbol := "eth"; mi_CurrentPrice := F64.of_Z 2 |};
               {| mi_Symbol := "BTC"; mi_CurrentPrice := F64.of_Z 3 |};
               {| mi_Symbol := "btc"; mi_CurrentPrice := F64.of_Z 4 |} ]
  = {[ "BTC" := F64.of_Z 4; "ETH" := F64.of_Z 2 ]}.
Proof. vm_compute. reflexivity. Qed.

(** The cycle that receives that response sends one result: the bitcoin
    at its last price under its upper-cased symbol, the ether, and no
    entry under the spelling ["btc"]. *)
Lemma snapshot_last_write_wins_witness :
  exists q d,
    favouritesCycle Canceled tt duplicates_env = (tt, [q; SendData d], Completed)
    /\ Type_ d = "FAVOURITES"
    /\ Favourites d !! "BTC" = Some (F64.of_Z 4)
    /\ Favourites d !! "ETH" = Some (F64.of_Z 2)
    /\ Favourites d !! "btc" = None.
Proof.
  assert (Hc : CaseComm <> CaseDone) by discriminate.
  destruct (snapshot_last_write_wins Canceled tt duplicates_env
              [ {| mi_Symbol := "btc"; mi_CurrentPrice := F64.of_Z 1 |};
                {| mi_Symbol := "eth"; mi_CurrentPrice := F64.of_Z 2 |};
                {| mi_Symbol := "BTC"; mi_CurrentPrice := F64.of_Z 3 |};
                {| mi_Symbol := "btc"; mi_CurrentPrice := F64.of_Z 4 |} ]
              CaseComm eq_refl eq_refl Hc)
    as (d & Hcycle & _ & Htype & Hlast & Hdom).
  eexists _, d. split; [exact Hcycle|]. split; [exact Htype|]. split; [|split].
  - apply Hlast.
    exists [ {| mi_Symbol := "btc"; mi_CurrentPrice := F64.of_Z 1 |};
             {| mi_Symbol := "eth"; mi_CurrentPrice := F64.of_Z 2 |};
             {| mi_Symbol := "BTC"; mi_CurrentPrice := F64.of_Z 3 |} ],
           {| mi_Symbol := "btc"; mi_CurrentPrice := F64.of_Z 4 |}, [].
    repeat split. constructor.
  - apply Hlast.
    exists [ {| mi_Symbol := "btc"; mi_CurrentPrice := F64.of_Z 1 |} ],
           {| mi_Symbol := "eth"; mi_CurrentPrice := F64.of_Z 2 |},
           [ {| mi_Symbol := "BTC"; mi_CurrentPrice := F64.of_Z 3 |};
             {| mi_Symbol := "btc"; mi_CurrentPrice := F64.of_Z 4 |} ].
    repeat split. repeat constructor; discriminate.
  - apply not_elem_of_dom. rewrite Hdom. intros (v & Hin & Hk).
    repeat (apply elem_of_cons in Hin as [->|Hin]; [discriminate|]).
    now apply elem_of_nil in Hin.
Defined.

(** ** What a data-channel result changes on the page *)

Section DataResults.

Context `{GoLib} `{Utils} `{Collaborators}.

Lemma set_index_lookup {A : Type} (l l' : list A) i v :
  set_index l i v = Some l' -> get_index l' i = Some v.
Proof.
  unfold set_index, get_index.
  destruct (0 <=? i) eqn:Hlo; simpl; [|discriminate].
  destruct (i <? Z.of_nat (length l)) eqn:Hhi; [|discriminate].
  intros [= <-]. apply list_lookup_insert_eq. lia.
Qed.

(** A cell that has been written holds what was written. *)
Lemma set_cell_get_cell rows rows' r c v :
  set_cell rows r c v = Some rows' -> get_cell rows' r c = Some v.
Proof.
  unfold set_cell, get_cell.
  destruct (get_index rows r) as [row|]; simpl; [|discriminate].
  destruct (set_index row c v) as [row'|] eqn:Hc; simpl; [|discriminate].
  intros Hr. rewrite (set_index_lookup _ _ _ _ Hr). simpl.
  exact (set_index_lookup _ _ _ _ Hc).
Qed.

(** The sort that follows every result touches the favourites table only. *)
Lemma resort_keeps st st' :
  resort st = Some st' ->
  VolumeGauge_Percent (myPage st') = VolumeGauge_Percent (myPage st)
  /\ PriceBox_Rows (myPage st') = PriceBox_Rows (myPage st)
  /\ ValueGraph_Data (myPage st') = ValueGraph_Data (myPage st)
  /\ ValueGraph_Labels (myPage st') = ValueGraph_Labels (myPage st)
  /\ currency st' = currency st
  /\ currencyVal st' = currencyVal st.
Proof.
  unfold resort. destruct (favSortIdx st =? -1).
  - intros [= <-]. now repeat split.
  - destruct (get_index favHeader (favSortIdx st)); simpl; [|discriminate].
    destruct (set_index _ _ _); simpl; [|discriminate].
    intros [= <-]. now repeat split.
Qed.

Lemma applyData_history data st st' :
  Type_ data = "HISTORY" -> applyData data st = Next st' ->
  exists st1, applyHistory data st = Some st1 /\ resort st1 = Some st'.
Proof.
  unfold applyData. intros ->. simpl.
  destruct (resort _) as [st2|] eqn:R; simpl; [|discriminate].
  intros [= <-]. eexists. split; [reflexivity | exact R].
Qed.

Lemma applyData_asset data st st' :
  Type_ data = "ASSET" -> applyData data st = Next st' ->
  exists st1, applyAsset data st = Some st1 /\ resort st1 = Some st'.
Proof.
  unfold applyData. intros ->. simpl.
  destruct (applyAsset data st) as [st1|]; simpl; [|discriminate].
  destruct (resort st1) as [st2|] eqn:R; simpl; [|discriminate].
  intros [= <-]. now exists st1.
Qed.

(** What a detail record leaves in the volume gauge and in the change
    cell of the price box. *)
Lemma applyAsset_page data st st1 :
  applyAsset data st = Some st1 ->
  VolumeGauge_Percent (myPage st1)
  = volumeGauge (ParseFloat (MarketCapUsd (Data (CoinAssetData data)))).1
      (VolumeUsd24Hr (Data (CoinAssetData data))) (VolumeGauge_Percent (myPage st))
  /\ get_cell (PriceBox_Rows (myPage st1)) 0 1
     = Some (changeIndicator (ChangePercent24Hr (Data (CoinAssetData data)))).
Proof.
  unfold applyAsset.
  destruct (ParseFloat (MarketCapUsd _)) as [mCap err]. simpl.
  destruct (marketCapString mCap err _ _) as [mCapStr|]; simpl; [|discriminate].
  destruct (ParseFloat (PriceUsd _)) as [price [e1|]];
    destruct (ParseFloat (Supply _)) as [supply [e2|]];
    try destruct (ParseFloat (MaxSupply _)) as [maxSupply [e3|]];
    try destruct (RoundValues supply maxSupply) as [supplyVals units]; simpl;
    (destruct (set_cell _ 0 1 _) as [box|] eqn:B; simpl; [|discriminate]);
    intros [= <-]; simpl; (split; [reflexivity | exact (set_cell_get_cell _ _ _ _ _ B)]).
Qed.

(** The labels a history result leaves are computed from the series it
    carries: from its maximum and its minimum, not from the extremes it
    transports. *)
Lemma applyHistory_labels data st :
  exists st1,
    applyHistory data st = Some st1
    /\ ValueGraph_Data (myPage st1) !! "Value" = Some (PriceHistory data)
    /\ ValueGraph_Labels (myPage st1) !! "Max"
       = Some (Sprintf_price (F64.div (MaxFloat64 (PriceHistory data)) (currencyVal st))
                 (currency st))
    /\ ValueGraph_Labels (myPage st1) !! "Min"
       = Some (Sprintf_price (F64.div (MinFloat64 (PriceHistory data)) (currencyVal st))
                 (currency st)).
Proof.
  eexists. split; [reflexivity|]. simpl. split; [apply lookup_insert_eq|].
  split; [|apply lookup_insert_eq].
  rewrite lookup_insert_ne by discriminate. apply lookup_insert_eq.
Qed.

(** C7, amended: for a detail record whose market cap parses to [m] and
    whose volume parses to [v], the gauge becomes
    [percent = int((v / m) * 100)] when [m > 0] and [0 <= percent <= 100],
    and keeps the percentage it showed otherwise: a value outside
    [0, 100] is dropped, not clamped.  A gauge within [0, 100] stays
    within [0, 100]. *)
Theorem volume_gauge_guarded (data : CoinData) (st st' : State) (m v : float64) :
  Type_ data = "ASSET" ->
  applyData data st = Next st' ->
  ParseFloat (MarketCapUsd (Data (CoinAssetData data))) = (m, None) ->
  ParseFloat (VolumeUsd24Hr (Data (CoinAssetData data))) = (v, None) ->
  let percent := int_of_float64 (F64.mul (F64.div v m) (F64.of_Z 100)) in
  VolumeGauge_Percent (myPage st')
  = (if F64.ltb F64.zero m && (0 <=? percent) && (percent <=? 100)
     then percent else VolumeGauge_Percent (myPage st))
  /\ (0 <= VolumeGauge_Percent (myPage st) <= 100 ->
      0 <= VolumeGauge_Percent (myPage st') <= 100).
Proof.
  intros HT HD Hm Hv percent.
  destruct (applyData_asset _ _ _ HT HD) as (st1 & HA & HR).
  destruct (resort_keeps _ _ HR) as (-> & _).
  destruct (applyAsset_page _ _ _ HA) as (-> & _).
  rewrite Hm. simpl. unfold volumeGauge. rewrite Hv. fold percent.
  destruct (F64.ltb F64.zero m); simpl; [|split; [reflexivity | auto]].
  rewrite andb_comm.
  replace (percent >=? 0) with (0 <=? percent) by (rewrite Z.geb_leb; reflexivity).
  destruct (0 <=? percent) eqn:Hlo, (percent <=? 100) eqn:Hhi; simpl;
    (split; [reflexivity|]); auto. lia.
Qed.

(** C8: a detail record whose volume parses to 500 and whose market cap
    parses to 1000 sets the gauge to 50; a detail record whose market
    cap parses to zero leaves the gauge as it was, whatever its volume:
    the division is behind the test [mCap > 0]. *)
Theorem volume_gauge_scenarios (data : CoinData) (st st' : State) :
  Type_ data = "ASSET" ->
  applyData data st = Next st' ->
  (ParseFloat (MarketCapUsd (Data (CoinAssetData data))) = (F64.of_Z 1000, None) ->
   ParseFloat (VolumeUsd24Hr (Data (CoinAssetData data))) = (F64.of_Z 500, None) ->
   VolumeGauge_Percent (myPage st') = 50)
  /\ (forall s e,
        ParseFloat (MarketCapUsd (Data (CoinAssetData data))) = (S754_zero s, e) ->
        VolumeGauge_Percent (myPage st') = VolumeGauge_Percent (myPage st)).
Proof.
  intros HT HD.
  destruct (applyData_asset _ _ _ HT HD) as (st1 & HA & HR).
  destruct (resort_keeps _ _ HR) as (-> & _).
  destruct (applyAsset_page _ _ _ HA) as (-> & _).
  split.
  - intros -> Hv. simpl. unfold volumeGauge. rewrite Hv. reflexivity.
  - intros s e ->. simpl. unfold volumeGauge.
    destruct (ParseFloat (VolumeUsd24Hr _)) as [vol [err|]]; [reflexivity|].
    now destruct s.
Qed.

(** C9: for a detail record whose 24h change parses to [c], the change
    cell of the price box shows the down glyph and the magnitude [-c] to
    two decimals when [c < 0] (the code's [-1 * c] is exactly [-c] on a
    float64), and the up glyph and [c] to two decimals when [c > 0]. *)
Theorem change_indicator_direction (data : CoinData) (st st' : State) (c : float64) :
  Type_ data = "ASSET" ->
  applyData data st = Next st' ->
  ParseFloat (ChangePercent24Hr (Data (CoinAssetData data))) = (c, None) ->
  F64.valid c = true ->
  (F64.ltb c F64.zero = true ->
   get_cell (PriceBox_Rows (myPage st')) 0 1
   = Some (DOWN_ARROW +:+ " " +:+ Fmt.f2 (F64.opp c)))
  /\ (F64.ltb F64.zero c = true ->
      get_cell (PriceBox_Rows (myPage st')) 0 1 = Some (UP_ARROW +:+ " " +:+ Fmt.f2 c)).
Proof.
  intros HT HD Hc Hv.
  destruct (applyData_asset _ _ _ HT HD) as (st1 & HA & HR).
  destruct (resort_keeps _ _ HR) as (_ & -> & _).
  destruct (applyAsset_page _ _ _ HA) as (_ & ->).
  unfold changeIndicator. rewrite Hc. split; intros Hlt.
  - rewrite Hlt, (mul_neg_one c Hv). reflexivity.
  - replace (F64.ltb c F64.zero) with false; [reflexivity|].
    symmetry. revert Hlt. unfold F64.ltb, SFltb, SFcompare, F64.zero.
    destruct c as [s|s| |s m e]; try destruct s; simpl; congruence.
Qed.

End DataResults.

(** C5: the code shows the extremes of the zeroed series, not the
    transported ones.  For the fetched prices ["100"] and ["150"] the
    history result carries the series 0, 50 with [MinPrice] 100 and
    [MaxPrice] 150; applied to the page in US dollars it leaves the
    labels ["50.00 USD $"] and ["0.00 USD $"], where the transported
    maximum and minimum give ["150.00 USD $"] and ["100.00 USD $"]. *)
Lemma history_labels_of_zeroed_series :
  exists d st',
    historyCycle Canceled "bitcoin" idle_state (fetch_env ["100"; "150"])
      = (idle_state, [Fetch (historyURL "bitcoin" "d1"); SendData d], Completed)
    /\ PriceHistory d = [F64.zero; F64.of_Z 50]
    /\ MinPrice d = F64.of_Z 100
    /\ MaxPrice d = F64.of_Z 150
    /\ applyData d start = Next st'
    /\ ValueGraph_Data (myPage st') !! "Value" = Some [F64.zero; F64.of_Z 50]
    /\ ValueGraph_Labels (myPage st') !! "Max" = Some "50.00 USD $"
    /\ ValueGraph_Labels (myPage st') !! "Min" = Some "0.00 USD $"
    /\ Sprintf_price (F64.div (MaxPrice d) (currencyVal start)) (currency start)
       = "150.00 USD $"
    /\ Sprintf_price (F64.div (MinPrice d) (currencyVal start)) (currency start)
       = "100.00 USD $".
Proof.
  eexists _, _. split; [vm_compute; reflexivity|].
  split; [vm_compute; reflexivity|]. split; [vm_compute; reflexivity|].
  split; [vm_compute; reflexivity|]. split; [vm_compute; reflexivity|].
  repeat split; vm_compute; reflexivity.
Qed.

(** C7, as the claim states it, fails: with the gauge at 7, a detail
    record of volume 2000 and market cap 1000 leaves the gauge at 7; the
    clamped percentage would be 100. *)
Lemma volume_gauge_not_clamped_counterexample :
  exists st' percent,
    applyData (asset_of "1000" "2000" "1.5") (start_with_gauge 7) = Next st'
    /\ percent = int_of_float64
                   (F64.mul (F64.div (ParseFloat "2000").1 (ParseFloat "1000").1)
                      (F64.of_Z 100))
    /\ percent = 200
    /\ VolumeGauge_Percent (myPage st') = 7
    /\ VolumeGauge_Percent (myPage st') <> Z.min 100 (Z.max 0 percent).
Proof.
  eexists _, _. split; [vm_compute; reflexivity|]. split; [reflexivity|].
  split; [vm_compute; reflexivity|]. split; [vm_compute; reflexivity|].
  vm_compute. discriminate.
Qed.

(** A detail record of volume 250 and market cap 1000 moves the gauge
    from 7 to 25. *)
Lemma volume_gauge_guarded_witness :
  exists st',
    applyData (asset_of "1000" "250" "1.5") (start_with_gauge 7) = Next st'
    /\ VolumeGauge_Percent (myPage st') = 25
    /\ 0 <= VolumeGauge_Percent (myPage st') <= 100.
Proof.
  destruct (applyData (asset_of "1000" "250" "1.5") (start_with_gauge 7))
    as [st'| |] eqn:E; [|vm_compute in E; discriminate..].
  assert (Hm : ParseFloat "1000" = (F64.of_Z 1000, None)) by (vm_compute; reflexivity).
  assert (Hv : ParseFloat "250" = (F64.of_Z 250, None)) by (vm_compute; reflexivity).
  destruct (volume_gauge_guarded (asset_of "1000" "250" "1.5") (start_with_gauge 7) st'
              (F64.of_Z 1000) (F64.of_Z 250) eq_refl E Hm Hv) as [G B].
  exists st'. split; [reflexivity|]. split; [rewrite G; reflexivity|].
  apply B. vm_compute. split; discriminate.
Defined.

(** The scenario of the spec: volume 500 and market cap 1000 give 50, and
    a market cap of 0 leaves the gauge at 7. *)
Lemma volume_gauge_scenarios_witness :
  (exists st',
      applyData (asset_of "1000" "500" "1.5") (start_with_gauge 7) = Next st'
      /\ VolumeGauge_Percent (myPage st') = 50)
  /\ (exists st',
        applyData (asset_of "0" "500" "1.5") (start_with_gauge 7) = Next st'
        /\ VolumeGauge_Percent (myPage st') = 7).
Proof.
  assert (Hm : ParseFloat "1000" = (F64.of_Z 1000, None)) by (vm_compute; reflexivity).
  assert (Hv : ParseFloat "500" = (F64.of_Z 500, None)) by (vm_compute; reflexivity).
  assert (Hz : ParseFloat "0" = (S754_zero false, None)) by (vm_compute; reflexivity).
  split.
  - destruct (applyData (asset_of "1000" "500" "1.5") (start_with_gauge 7))
      as [st'| |] eqn:E; [|vm_compute in E; discriminate..].
    exists st'. split; [reflexivity|].
    exact (proj1 (volume_gauge_scenarios (asset_of "1000" "500" "1.5")
                    (start_with_gauge 7) st' eq_refl E) Hm Hv).
  - destruct (applyData (asset_of "0" "500" "1.5") (start_with_gauge 7))
      as [st'| |] eqn:E; [|vm_compute in E; discriminate..].
    exists st'. split; [reflexivity|].
    exact (proj2 (volume_gauge_scenarios (asset_of "0" "500" "1.5")
                    (start_with_gauge 7) st' eq_refl E) false None Hz).
Defined.

(** The scenario of the spec: a change of -3.25 shows the down glyph and
    3.25, a change of 3.25 the up glyph and 3.25. *)
Lemma change_indicator_direction_witness :
  (exists st',
      applyData (asset_of "1000" "500" "-3.25") start = Next st'
      /\ get_cell (PriceBox_Rows (myPage st')) 0 1 = Some "▼ 3.25")
  /\ (exists st',
        applyData (asset_of "1000" "500" "3.25") start = Next st'
        /\ get_cell (PriceBox_Rows (myPage st')) 0 1 = Some "▲ 3.25").
Proof.
  assert (Hn : ParseFloat "-3.25" = ((ParseFloat "-3.25").1, None))
    by (vm_compute; reflexivity).
  assert (Hp : ParseFloat "3.25" = ((ParseFloat "3.25").1, None))
    by (vm_compute; reflexivity).
  split.
  - destruct (applyData (asset_of "1000" "500" "-3.25") start)
      as [st'| |] eqn:E; [|vm_compute in E; discriminate..].
    exists st'. split; [reflexivity|].
    rewrite (proj1 (change_indicator_direction (asset_of "1000" "500" "-3.25") start st'
                      _ eq_refl E Hn eq_refl)); vm_compute; reflexivity.
  - destruct (applyData (asset_of "1000" "500" "3.25") start)
      as [st'| |] eqn:E; [|vm_compute in E; discriminate..].
    exists st'. split; [reflexivity|].
    rewrite (proj2 (change_indicator_direction (asset_of "1000" "500" "3.25") start st'
                      _ eq_refl E Hp eq_refl)); vm_compute; reflexivity.
Defined.

(** The glyphs are the three UTF-8 bytes of U+25B2 and U+25BC. *)
Example arrows_bytes :
  UP_ARROW = String "226" (String "150" (String "178" ""))
  /\ DOWN_ARROW = String "226" (String "150" (String "188" "")).
Proof. split; reflexivity. Qed.

(** ** A currency selection that does not parse *)

Section CurrencySelection.

Context `{GoLib} `{Utils} `{Collaborators}.

Variable ctx_err : error.

(** C6, amended: when the user commits, on the currency overlay, a
    selection whose rate field does not parse, the selection is absorbed
    in the loop: the overlay closes, the currency label becomes the
    default ["USD $"] whatever the currency was, the page and the widget
    are as before, and the loop goes on with the inputs that follow
    without returning an error. *)
Theorem malformed_currency_absorbed (w h : Z) (st : State) (row : list string)
  (r0 r1 r3 : string) (v : float64) (err : error) :
  selectCurrency st = true ->
  get_index (Rows (currencyWidget st)) (SelectedRow (currencyWidget st)) = Some row ->
  get_index row 0 = Some r0 ->
  get_index row 1 = Some r1 ->
  get_index row 3 = Some r3 ->
  ParseFloat r3 = (v, Some err) ->
  exists st',
    applyEvent w h "<Enter>" st = Next st'
    /\ currency st' = "USD $"
    /\ selectCurrency st' = false
    /\ myPage st' = myPage st
    /\ currencyWidget st' = currencyWidget st
    /\ forall inputs,
         loop ctx_err w h (UiEvent "<Enter>" :: inputs) st = loop ctx_err w h inputs st'.
Proof.
  intros Hsel Hrow H0' H1' H3' Hp.
  assert (Hlt : (SelectedRow (currencyWidget st)
                 <? Z.of_nat (length (Rows (currencyWidget st)))) = true).
  { unfold get_index in Hrow. destruct (0 <=? _) eqn:Hlo; [|discriminate].
    apply lookup_lt_Some in Hrow. apply Z.ltb_lt. lia. }
  assert (E : applyEvent w h "<Enter>" st
              = Next (with_selectCurrency false (with_currency "USD $" F64.zero st))).
  { unfold applyEvent. simpl. rewrite Hsel. unfold overlayKey. simpl.
    unfold commitCurrency. rewrite Hlt, Hrow. simpl. rewrite H0', H1', H3'. simpl.
    rewrite Hp. reflexivity. }
  eexists. split; [exact E|]. repeat split.
  intros inputs. simpl. now rewrite E.
Qed.

End CurrencySelection.

(** C6, as the claim states it, fails: with the page in euros at the
    factor 0.92, committing a selection whose rate field is ["n/a"]
    leaves the label ["USD $"] and the factor 0, not the euro and 0.92;
    the price 29000.5 is then shown as ["+Inf USD $"]. *)
Lemma malformed_currency_counterexample :
  exists st' st'',
    (ParseFloat "n/a").2 = Some ErrSyntax
    /\ currency (picking "n/a") = "EUR €"
    /\ applyEvent 120 40 "<Enter>" (picking "n/a") = Next st'
    /\ currency st' = "USD $"
    /\ currency st' <> currency (picking "n/a")
    /\ currencyVal st' = F64.zero
    /\ currencyVal st' <> currencyVal (picking "n/a")
    /\ applyPrice "29000.5" st' = Next st''
    /\ get_cell (PriceBox_Rows (myPage st'')) 0 0 = Some "+Inf USD $".
Proof.
  eexists _, _. split; [vm_compute; reflexivity|]. split; [vm_compute; reflexivity|].
  split; [vm_compute; reflexivity|]. split; [vm_compute; reflexivity|].
  split; [vm_compute; discriminate|]. split; [vm_compute; reflexivity|].
  split; [vm_compute; discriminate|]. split; [vm_compute; reflexivity|].
  vm_compute; reflexivity.
Qed.

Lemma malformed_currency_absorbed_witness :
  selectCurrency (picking "n/a") = true
  /\ ParseFloat "n/a" = (F64.zero, Some ErrSyntax)
  /\ exists st',
       applyEvent 120 40 "<Enter>" (picking "n/a") = Next st'
       /\ currency st' = "USD $"
       /\ selectCurrency st' = false.
Proof.
  assert (Hp : ParseFloat "n/a" = (F64.zero, Some ErrSyntax)) by (vm_compute; reflexivity).
  split; [reflexivity|]. split; [exact Hp|].
  destruct (malformed_currency_absorbed Canceled 120 40 (picking "n/a")
              ["GBP"; "£"; "British Pound"; "n/a"] "GBP" "£" "n/a" F64.zero ErrSyntax
              eq_refl eq_refl eq_refl eq_refl eq_refl Hp)
    as (st' & E & Hc & Hs & _).
  exists st'. now repeat split.
Defined.

(** ** A stream message without the identifier *)

Section LivePrice.

Context `{GoLib} `{Utils} `{Collaborators}.

Variable ctx_err : error.

(** Decoding leaves the entry of a key the object does not mention as it
    was. *)
Lemma decodeInto_absent (members : list (string * string)) (id : string) :
  forall msg, id ∉ members.*1 -> decodeInto msg members !! id = msg !! id.
Proof.
  unfold decodeInto.
  induction members as [|[k v] members IH]; intros msg Hid; simpl; [reflexivity|].
  apply not_elem_of_cons in Hid as [Hk Hid]. simpl in Hk.
  rewrite IH by exact Hid. apply lookup_insert_ne. congruence.
Qed.

(** Decoding leaves an entry for every key the object mentions. *)
Lemma decodeInto_mentioned (members : list (string * string)) (k : string) :
  forall msg, k ∈ members.*1 -> is_Some (decodeInto msg members !! k).
Proof.
  unfold decodeInto.
  induction members as [|[k' v] members IH] using rev_ind; intros msg Hk.
  - now apply elem_of_nil in Hk.
  - rewrite fold_left_app. simpl. rewrite fmap_app in Hk.
    destruct (decide (k' = k)) as [->|Hne].
    + rewrite lookup_insert_eq. eauto.
    + rewrite lookup_insert_ne by exact Hne. apply IH.
      apply elem_of_app in Hk as [Hk|Hk]; [exact Hk|].
      apply list_elem_of_singleton in Hk. simpl in Hk. congruence.
Qed.

(** C10, amended: when a message decodes and has no entry for the
    identifier, the live stream adapter still sends.  [msg] is made once
    and reused for every read: after an object without the identifier it
    holds for the identifier what it held before, and the adapter sends
    that, the empty string when [msg] has no entry for it; after the
    message [null] it is [nil], and the adapter sends the empty string
    and has forgotten the entries of the earlier messages.  On the empty
    string the multiplexer ignores the parse error, takes the price 0
    and writes [0 / currencyVal] to two decimals and the currency in the
    price cell, without an error: that is ["0.00"] and the currency
    whenever the conversion factor is above zero. *)
Theorem live_price_missing_entry (id : string) (msg : gmap string string) (env : LiveEnv)
  (message : json_message) (st : State) (e : error) :
  le_read env = ReadOk message ->
  match message with JsonObject members => id ∉ members.*1 | JsonNull => True end ->
  guarded_send (le_send env) = Some CaseComm ->
  ParseFloat "" = (F64.zero, Some e) ->
  is_Some (get_cell (PriceBox_Rows (myPage st)) 0 0) ->
  (exists msg',
      liveCycle ctx_err id msg env
      = (msg',
         [SendPrice match message with JsonObject _ => msgIndex msg id | JsonNull => "" end],
         Completed)
      /\ match message with
         | JsonObject members =>
             msg' !! id = msg !! id
             /\ forall k v, (k, v) ∈ members -> is_Some (msg' !! k)
         | JsonNull => msg' = ∅
         end)
  /\ (msg !! id = None -> msgIndex msg id = "")
  /\ (forall old, msg !! id = Some old -> msgIndex msg id = old)
  /\ exists st',
       applyPrice "" st = Next st'
       /\ get_cell (PriceBox_Rows (myPage st')) 0 0
          = Some (Sprintf_price (F64.div F64.zero (currencyVal st)) (currency st))
       /\ (F64.ltb F64.zero (currencyVal st) = true ->
           get_cell (PriceBox_Rows (myPage st')) 0 0 = Some ("0.00 " +:+ currency st))
       /\ currency st' = currency st
       /\ currencyVal st' = currencyVal st.
Proof.
  intros Hr Hid Hs Hp [cell Hcell].
  split.
  { exists (decodeMessage msg message). split.
    - unfold liveCycle. rewrite Hr, Hs. destruct message as [members|]; [|reflexivity].
      unfold msgIndex. simpl. now rewrite (decodeInto_absent members id msg Hid).
    - destruct message as [members|]; [|reflexivity]. simpl. split.
      + exact (decodeInto_absent members id msg Hid).
      + intros k v Hin. apply decodeInto_mentioned. apply list_elem_of_fmap.
        now exists (k, v). }
  split; [unfold msgIndex; now intros ->|].
  split; [unfold msgIndex; now intros old ->|].
  unfold applyPrice. rewrite Hp. cbn [fst].
  destruct (set_cell (PriceBox_Rows (myPage st)) 0 0 _) as [rows|] eqn:Hset.
  - eexists. split; [reflexivity|].
    cbn [myPage with_myPage PriceBox_Rows with_PriceBox_Rows currency currencyVal].
    rewrite (set_cell_get_cell _ _ _ _ _ Hset).
    split; [reflexivity|]. split; [|split; reflexivity].
    intros Hpos.
    assert (Hz : F64.div F64.zero (currencyVal st) = F64.zero).
    { revert Hpos. unfold F64.ltb, SFltb, SFcompare, F64.zero.
      destruct (currencyVal st) as [s|s| |s m x]; try destruct s; simpl;
        try discriminate; reflexivity. }
    rewrite Hz. reflexivity.
  - exfalso. revert Hcell Hset. unfold get_cell, set_cell, set_index, get_index. simpl.
    destruct (PriceBox_Rows (myPage st)) as [|row rows]; simpl; [discriminate|].
    destruct row as [|c0 row]; simpl; discriminate.
Qed.

End LivePrice.

(** C10, as the claim states it, fails: after a message with the price
    ["29000.5"] for ["bitcoin"], a message that has no entry for
    ["bitcoin"] makes the adapter send ["29000.5"] again, not the empty
    string; and on a page whose conversion factor is 0 the empty string
    is shown as ["NaN USD $"], not as ["0.00 USD $"]. *)
Lemma live_price_stale_counterexample :
  GetLivePrice Canceled "bitcoin" None
    [ run_tick (live_env [("bitcoin", "29000.5")]);
      run_tick (live_env [("ethereum", "1800.25")]) ]
  = ([SendPrice "29000.5"; SendPrice "29000.5"], None)
  /\ exists st',
       applyPrice "" (with_currency "USD $" F64.zero start) = Next st'
       /\ get_cell (PriceBox_Rows (myPage st')) 0 0 = Some "NaN USD $".
Proof.
  split; [vm_compute; reflexivity|]. eexists. split; vm_compute; reflexivity.
Qed.

(** The first message of a connection has no entry for the identifier:
    the empty string is sent and shown as ["0.00 USD $"].  The message
    [null] after a price: the empty string is sent and the price is
    forgotten. *)
Lemma live_price_missing_entry_witness :
  ParseFloat "" = (F64.zero, Some ErrSyntax)
  /\ (exists msg',
        liveCycle Canceled "bitcoin" ∅ (live_env [("ethereum", "1800.25")])
        = (msg', [SendPrice ""], Completed)
        /\ msg' !! "bitcoin" = None)
  /\ liveCycle Canceled "bitcoin" {[ "bitcoin" := "29000.5" ]} null_env
     = (∅, [SendPrice ""], Completed)
  /\ exists st',
       applyPrice "" start = Next st'
       /\ get_cell (PriceBox_Rows (myPage st')) 0 0 = Some "0.00 USD $".
Proof.
  assert (Hp : ParseFloat "" = (F64.zero, Some ErrSyntax)) by (vm_compute; reflexivity).
  assert (Hid : "bitcoin" ∉ [("ethereum", "1800.25")].*1).
  { simpl. intros Hin. apply list_elem_of_singleton in Hin. discriminate. }
  assert (Hcell : is_Some (get_cell (PriceBox_Rows (myPage start)) 0 0))
    by (vm_compute; eauto).
  split; [exact Hp|].
  destruct (live_price_missing_entry Canceled "bitcoin" ∅
              (live_env [("ethereum", "1800.25")]) (JsonObject [("ethereum", "1800.25")])
              start ErrSyntax eq_refl Hid eq_refl Hp Hcell)
    as ((msg1 & Hc1 & Hkeep & _) & _ & _ & st' & Ha & _ & Hz & _).
  destruct (live_price_missing_entry Canceled "bitcoin" {[ "bitcoin" := "29000.5" ]}
              null_env JsonNull start ErrSyntax eq_refl I eq_refl Hp Hcell)
    as ((msg2 & Hc2 & Hnil) & _).
  split; [exists msg1; split; [exact Hc1 | rewrite Hkeep; reflexivity]|].
  split; [rewrite Hc2, Hnil; reflexivity|].
  exists st'. split; [exact Ha|]. rewrite Hz; [reflexivity | vm_compute; reflexivity].
Defined.

(** A price, then the message [null], then a message for another coin:
    the price is sent once and the empty string twice. *)
Example live_price_null_forgets :
  GetLivePrice Canceled "bitcoin" None
    [ run_tick (live_env [("bitcoin", "29000.5")]);
      run_tick null_env;
      run_tick (live_env [("ethereum", "1800.25")]) ]
  = ([SendPrice "29000.5"; SendPrice ""; SendPrice ""], None).
Proof. vm_compute. reflexivity. Qed.

(* ===================================================================== *)
(** * Further properties of the adapters *)
(* ===================================================================== *)

Section AdapterCycles.

Context `{GoLib} `{Utils}.

Variable ctx_err : error.

(** X1: every cycle of the batch adapter starts with one market query.
    It asks for every key of [favourites], whatever the boolean stored
    under it, each key once, with the number of keys as the page size;
    an empty map still makes the query, for no identifier and a page size
    of 0. *)
Theorem favourites_query_all_keys (st : unit) (env : FavEnv) :
  exists IDs rest e,
    favouritesCycle ctx_err st env
    = (st, MarketQuery IDs (Z.of_nat (size (fe_favourites env))) :: rest, e)
    /\ NoDup IDs
    /\ forall id, id ∈ IDs <-> is_Some (fe_favourites env !! id).
Proof.
  exists (map_to_list (fe_favourites env)).*1.
  assert (Hlen : length (map_to_list (fe_favourites env)).*1 = size (fe_favourites env)).
  { now rewrite length_fmap, length_map_to_list. }
  assert (Hrun : exists rest e,
    favouritesCycle ctx_err st env
    = (st, MarketQuery (map_to_list (fe_favourites env)).*1
             (Z.of_nat (size (fe_favourites env))) :: rest, e)).
  { unfold favouritesCycle. rewrite Hlen.
    destruct (fe_market env _ _) as [err|items]; [now eexists _, _|].
    destruct (guarded_send (fe_send env)) as [[| |]|]; now eexists _, _. }
  destruct Hrun as (rest & e & Hrun). exists rest, e. split; [exact Hrun|]. split.
  - apply NoDup_fst_map_to_list.
  - intros id. rewrite list_elem_of_fmap. split.
    + intros ([k b] & -> & Hin). apply elem_of_map_to_list in Hin. simpl. eauto.
    + intros [b Hb]. exists (id, b). split; [reflexivity|]. now apply elem_of_map_to_list.
Qed.

(** The aggregation stops at the first price that does not parse, with
    the error of that price. *)
Lemma parsePrices_first_error (pre : list HistoryPoint) v post err acc :
  Forall (fun p => (ParseFloat (hp_Price p)).2 = None) pre ->
  (ParseFloat (hp_Price v)).2 = Some err ->
  parsePrices (pre ++ v :: post) acc = inl err.
Proof.
  intros Hpre Hv. revert acc.
  induction Hpre as [|p pre Hp _ IH]; intros acc; simpl.
  - destruct (ParseFloat (hp_Price v)) as [x [e|]]; simpl in Hv; congruence.
  - destruct (ParseFloat (hp_Price p)) as [x [e|]]; simpl in Hp; [discriminate|]. apply IH.
Qed.

(** X2: when one price of the fetched history does not parse, the cycle
    of the history adapter reports the error of the first such price and
    sends nothing, whatever the prices before and after it and whatever
    the state of the receiver: the points that parsed are dropped. *)
Theorem history_malformed_price_aborts (id : string) (st st1 : HistState) (env : HistEnv)
  (pre : list HistoryPoint) (v : HistoryPoint) (post : list HistoryPoint) (err : error) :
  drainInterval st env = Some st1 ->
  he_fetch env (historyURL id (interval st1)) = inr (pre ++ v :: post) ->
  Forall (fun p => (ParseFloat (hp_Price p)).2 = None) pre ->
  (ParseFloat (hp_Price v)).2 = Some err ->
  historyCycle ctx_err id st env
  = (st1, [Fetch (historyURL id (interval st1))], Reported err).
Proof.
  intros Hd Hf Hpre Hv. unfold historyCycle.
  now rewrite Hd, Hf, (parsePrices_first_error pre v post err [] Hpre Hv).
Qed.

(** X3: the interval is kept from one cycle to the next.  With no update
    pending on the interval channel, every request the history adapter
    makes over any number of ticks, whatever the cycles meet, is for the
    interval it holds (["d1"] from the start). *)
Theorem history_interval_persists (id : string) (ticks : list (Tick HistEnv))
  (st : HistState) (evs : list event) (r : option error) :
  Chan.pending (intervalChannel st) = [] ->
  LoopTick (historyCycle ctx_err id) ctx_err st ticks = (evs, r) ->
  forall url, Fetch url ∈ evs -> url = historyURL id (interval st).
Proof.
  intros Hp. revert evs r.
  induction ticks as [|tk rest IH]; intros evs r; simpl.
  - intros [= <- <-] url Hin. now apply elem_of_nil in Hin.
  - destruct (tick_cancelled tk).
    { intros [= <- <-] url Hin. now apply elem_of_nil in Hin. }
    assert (Hd : drainInterval st (tick_env tk) = None
                 \/ drainInterval st (tick_env tk) = Some st).
    { unfold drainInterval, Chan.ready. rewrite Hp.
      destruct (he_done (tick_env tk)); simpl; auto. }
    unfold historyCycle at 1.
    destruct Hd as [-> | ->].
    { intros [= <- <-] url Hin. now apply elem_of_nil in Hin. }
    set (u := historyURL id (interval st)).
    assert (Hone : forall url, Fetch url ∈ [Fetch u] -> url = u).
    { intros url Hin. apply list_elem_of_singleton in Hin. congruence. }
    destruct (he_fetch (tick_env tk) u) as [err|data]; [intros [= <- <-]; exact Hone|].
    destruct (parsePrices data []) as [err|price]; [intros [= <- <-]; exact Hone|].
    destruct (guarded_send (he_send (tick_env tk))) as [[| |]|];
      try (intros [= <- <-]; exact Hone);
      destruct (LoopTick _ ctx_err st rest) as [evs' r'] eqn:E;
      intros [= <- <-] url Hin;
      (apply elem_of_cons in Hin as [Hin|Hin]; [congruence|]);
      (apply elem_of_cons in Hin as [Hin|Hin]; [discriminate|]);
      exact (IH _ _ eq_refl url Hin).
Qed.

Lemma decodeInto_app msg (a b : list (string * string)) :
  decodeInto (decodeInto msg a) b = decodeInto msg (a ++ b).
Proof. unfold decodeInto. now rewrite fold_left_app. Qed.

(** X4: when the decoded message has an entry for the identifier, the
    live stream adapter sends the value of that entry, the last one if
    the object repeats the key, and [msg] keeps it for the later cycles;
    the keys the message does not mention keep what they had. *)
Theorem live_price_sends_last_entry (id v : string) (msg : gmap string string)
  (env : LiveEnv) (pre post : list (string * string)) (c : select_case) :
  le_read env = ReadOk (JsonObject (pre ++ (id, v) :: post)) ->
  id ∉ post.*1 ->
  guarded_send (le_send env) = Some c ->
  c <> CaseDone ->
  exists msg',
    liveCycle ctx_err id msg env = (msg', [SendPrice v], Completed)
    /\ msg' !! id = Some v
    /\ forall k, k ∉ (pre ++ (id, v) :: post).*1 -> msg' !! k = msg !! k.
Proof.
  intros Hr Hpost Hs Hc.
  assert (Hv : decodeInto msg (pre ++ (id, v) :: post) !! id = Some v).
  { rewrite <- decodeInto_app. change ((id, v) :: post) with ([(id, v)] ++ post).
    rewrite <- decodeInto_app, (decodeInto_absent post id _ Hpost).
    apply lookup_insert_eq. }
  exists (decodeInto msg (pre ++ (id, v) :: post)). split; [|split].
  - unfold liveCycle. rewrite Hr, Hs. unfold msgIndex, decodeMessage. rewrite Hv. simpl.
    now destruct c.
  - exact Hv.
  - intros k Hk. now apply decodeInto_absent.
Qed.

(** X5: a read that panics is recovered without a trace.  The deferred
    report runs before the recovery sets [finalErr], so the cycle sends
    nothing, reports nothing and leaves [msg] as it was, and the adapter
    goes on with the next tick as if the tick had not run. *)
Theorem live_read_panic_unreported (id : string) (msg : gmap string string)
  (tk : Tick LiveEnv) (rest : list (Tick LiveEnv)) :
  tick_cancelled tk = false ->
  le_read (tick_env tk) = ReadPanic ->
  liveCycle ctx_err id msg (tick_env tk) = (msg, [], Completed)
  /\ LoopTick (liveCycle ctx_err id) ctx_err msg (tk :: rest)
     = LoopTick (liveCycle ctx_err id) ctx_err msg rest.
Proof.
  intros Hc Hr.
  assert (E : liveCycle ctx_err id msg (tick_env tk) = (msg, [], Completed)).
  { unfold liveCycle. now rewrite Hr. }
  split; [exact E|]. simpl. rewrite Hc, E.
  now destruct (LoopTick _ ctx_err msg rest).
Qed.

(** X6: no cycle sends twice.  A cycle of the batch, history or detail
    adapter sends exactly one result when it completes and none when it
    reports an error or blocks; a cycle of the live stream adapter sends
    exactly one price when it completes after a successful read, and none
    otherwise. *)
Theorem cycle_sends_at_most_once :
  (forall st env,
      let '(_, evs, e) := favouritesCycle ctx_err st env in
      length (List.filter is_send evs)
      = match e with Completed => 1%nat | _ => 0%nat end)
  /\ (forall id st env,
        let '(_, evs, e) := historyCycle ctx_err id st env in
        length (List.filter is_send evs)
        = match e with Completed => 1%nat | _ => 0%nat end)
  /\ (forall id st env,
        let '(_, evs, e) := assetCycle ctx_err id st env in
        length (List.filter is_send evs)
        = match e with Completed => 1%nat | _ => 0%nat end)
  /\ (forall id msg env,
        let '(_, evs, e) := liveCycle ctx_err id msg env in
        length (List.filter is_send evs)
        = match e, le_read env with
          | Completed, ReadOk _ => 1%nat
          | _, _ => 0%nat
          end).
Proof.
  repeat split.
  - intros st env. unfold favouritesCycle.
    destruct (fe_market env _ _); [reflexivity|].
    now destruct (guarded_send (fe_send env)) as [[| |]|].
  - intros id st env. unfold historyCycle.
    destruct (drainInterval st env); [|reflexivity].
    destruct (he_fetch env _); [reflexivity|].
    destruct (parsePrices _ _); [reflexivity|].
    now destruct (guarded_send (he_send env)) as [[| |]|].
  - intros id st env. unfold assetCycle.
    destruct (ae_fetch env _); [reflexivity|].
    now destruct (guarded_send (ae_send env)) as [[| |]|].
  - intros id msg env. unfold liveCycle.
    destruct (le_read env); try reflexivity.
    now destruct (guarded_send (le_send env)) as [[| |]|].
Qed.

End AdapterCycles.

(** A history of three points whose second price is not a number: the
    cycle reports the syntax error and sends nothing. *)
Lemma history_malformed_price_aborts_witness :
  historyCycle Canceled "bitcoin" idle_state (fetch_env ["1.5"; "abc"; "2"])
  = (idle_state, [Fetch (historyURL "bitcoin" "d1")], Reported ErrSyntax).
Proof.
  assert (Hpre : Forall (fun p => (ParseFloat (hp_Price p)).2 = None) [point "1.5"]).
  { repeat constructor. }
  assert (Hv : (ParseFloat (hp_Price (point "abc"))).2 = Some ErrSyntax)
    by (vm_compute; reflexivity).
  exact (history_malformed_price_aborts Canceled "bitcoin" idle_state idle_state
           (fetch_env ["1.5"; "abc"; "2"]) [point "1.5"] (point "abc") [point "2"]
           ErrSyntax eq_refl eq_refl Hpre Hv).
Defined.

(** Two cycles with nothing sent on the interval channel: both requests
    are for ["d1"]. *)
Lemma history_interval_persists_witness :
  Chan.pending (Chan.make (A := string) 1) = []
  /\ (GetCoinHistory Canceled "bitcoin" (Chan.make 1)
        [run_tick (fetch_env ["1"]); run_tick (fetch_env ["2"])]).1 !! 2%nat
     = Some (Fetch (historyURL "bitcoin" "d1"))
  /\ forall url,
       Fetch url ∈ (GetCoinHistory Canceled "bitcoin" (Chan.make 1)
                      [run_tick (fetch_env ["1"]); run_tick (fetch_env ["2"])]).1 ->
       url = historyURL "bitcoin" "d1".
Proof.
  split; [reflexivity|]. split; [vm_compute; reflexivity|].
  destruct (GetCoinHistory Canceled "bitcoin" (Chan.make 1)
              [run_tick (fetch_env ["1"]); run_tick (fetch_env ["2"])]) as [evs r] eqn:E.
  exact (history_interval_persists Canceled "bitcoin" _
           {| interval := "d1"; intervalChannel := Chan.make 1 |} evs r eq_refl E).
Defined.

(** A message that names the identifier twice: the second value is sent
    and kept, and the entry of an earlier message for another coin
    stays. *)
Lemma live_price_sends_last_entry_witness :
  exists msg',
    liveCycle Canceled "bitcoin" {[ "litecoin" := "70.1" ]}
      (live_env [("ethereum", "1800.25"); ("bitcoin", "29000.5"); ("bitcoin", "29001")])
    = (msg', [SendPrice "29001"], Completed)
    /\ msg' !! "bitcoin" = Some "29001"
    /\ msg' !! "litecoin" = Some "70.1".
Proof.
  assert (Hpost : "bitcoin" ∉ (@nil (string * string)).*1) by apply not_elem_of_nil.
  assert (Hc : CaseComm <> CaseDone) by discriminate.
  destruct (live_price_sends_last_entry Canceled "bitcoin" "29001" {[ "litecoin" := "70.1" ]}
              (live_env [("ethereum", "1800.25"); ("bitcoin", "29000.5"); ("bitcoin", "29001")])
              [("ethereum", "1800.25"); ("bitcoin", "29000.5")] [] CaseComm
              eq_refl Hpost eq_refl Hc) as (msg' & Hrun & Hid & Hkeep).
  exists msg'. split; [exact Hrun|]. split; [exact Hid|].
  rewrite (Hkeep "litecoin"); [reflexivity|].
  simpl. intros Hin. repeat (apply elem_of_cons in Hin as [Hin|Hin]; [discriminate|]).
  now apply elem_of_nil in Hin.
Defined.

(** A read that panics between two reads of a price: the adapter sends
    the two prices and nothing shows that the panic happened. *)
Lemma live_read_panic_unreported_witness :
  liveCycle Canceled "bitcoin" ∅ (tick_env (run_tick panic_env)) = (∅, [], Completed)
  /\ GetLivePrice Canceled "bitcoin" None
       [ run_tick panic_env; run_tick (live_env [("bitcoin", "29000.5")]) ]
     = ([SendPrice "29000.5"], None).
Proof.
  destruct (live_read_panic_unreported Canceled "bitcoin" ∅ (run_tick panic_env)
              [run_tick (live_env [("bitcoin", "29000.5")])] eq_refl eq_refl)
    as [Hcycle Hrun].
  split; [exact Hcycle|]. unfold GetLivePrice. rewrite Hrun. vm_compute. reflexivity.
Defined.

(* ===================================================================== *)
(** * Further properties of the page *)
(* ===================================================================== *)

(** Case analysis on the key an event carries, one comparison of the
    source at a time. *)
Ltac key_cases k :=
  repeat match goal with
  | |- context [String.eqb k ?s] =>
      let E := fresh "E" in
      destruct (String.eqb k s) eqn:E;
      [apply String.eqb_eq in E; subst k; simpl | simpl]
  end.

Section Keys.

Context `{GoLib} `{Utils} `{Collaborators}.

Variable ctx_err : error.

(** X7: the two ways out of the page.  [<Escape>] closes the currency
    overlay when it is shown, and the loop goes on with the inputs that
    follow; on the page itself it ends [DisplayCoin] with ["UI Closed"].
    [q] and [<C-c>] end it with ["coin UI Closed"] whether the overlay is
    shown or not.  The inputs after the one that ends the loop are not
    read. *)
Theorem escape_closes_overlay_before_quitting (w h : Z) (rest : list input) (st : State) :
  loop ctx_err w h (UiEvent "<Escape>" :: rest) st
  = (if selectCurrency st
     then loop ctx_err w h rest (with_selectCurrency false st)
     else Return (Err "UI Closed"))
  /\ loop ctx_err w h (UiEvent "q" :: rest) st = Return (Err "coin UI Closed")
  /\ loop ctx_err w h (UiEvent "<C-c>" :: rest) st = Return (Err "coin UI Closed").
Proof.
  split; [|split; reflexivity].
  simpl. unfold applyEvent. simpl.
  destruct (selectCurrency st) eqn:S; simpl; [|reflexivity].
  rewrite S. reflexivity.
Qed.

(** X8: while the currency overlay is shown, no key reaches the page: the
    favourites table, its sort column and direction and the remembered
    previous key are as they were after any key that does not end the
    loop.  In particular the sort keys do nothing there, and [g] pressed
    twice on the overlay does not count as [gg]. *)
Theorem overlay_keys_leave_page (w h : Z) (k : string) (st st' : State) :
  selectCurrency st = true ->
  applyEvent w h k st = Next st' ->
  FavouritesTable (myPage st') = FavouritesTable (myPage st)
  /\ favSortIdx st' = favSortIdx st
  /\ favSortAsc st' = favSortAsc st
  /\ previousKey st' = previousKey st.
Proof.
  intros S. unfold applyEvent, overlayKey, scroll_of_key, key_in, commitCurrency, updateUI.
  simpl.
  key_cases k; repeat (rewrite S; simpl); try discriminate;
    try (intros [= <-]; now repeat split).
  - destruct (String.eqb (previousKey st) "g"); simpl; intros [= <-]; now repeat split.
  - destruct (_ <? _); simpl; [|intros [= <-]; now repeat split].
    destruct (get_index (Rows _) _) as [row|]; simpl; [|discriminate].
    destruct (get_index row 0); simpl; [|discriminate].
    destruct (get_index row 1); simpl; [|discriminate].
    destruct (get_index row 3); simpl; [|discriminate].
    destruct (ParseFloat _) as [v [e|]]; simpl; intros [= <-]; now repeat split.
Qed.

(** X9: on the page, [g] pressed twice scrolls the favourites table to
    its top.  The first [g] only shows the cursor and is remembered; the
    second scrolls and clears the memory, so that a third [g] starts
    over. *)
Theorem gg_scrolls_to_top (w h : Z) (st : State) :
  selectCurrency st = false ->
  previousKey st <> "g" ->
  exists st1 st2,
    applyEvent w h "g" st = Next st1
    /\ FavouritesTable (myPage st1) = with_ShowCursor true (FavouritesTable (myPage st))
    /\ previousKey st1 = "g"
    /\ applyEvent w h "g" st1 = Next st2
    /\ FavouritesTable (myPage st2)
       = Scroll ScrollTop (with_ShowCursor true (FavouritesTable (myPage st)))
    /\ previousKey st2 = "".
Proof.
  intros S Hg. apply String.eqb_neq in Hg.
  assert (K : forall p, scroll_of_key p "g"
                        = if String.eqb p "g" then Some ScrollTop else None)
    by reflexivity.
  set (ft := with_ShowCursor true (FavouritesTable (myPage st))).
  set (st1 := with_previousKey "g" (with_myPage (with_FavouritesTable ft (myPage st)) st)).
  assert (E1 : applyEvent w h "g" st = Next st1).
  { unfold applyEvent, pageKey. simpl. rewrite S, K, Hg. simpl. now rewrite Hg. }
  exists st1. eexists. split; [exact E1|]. split; [reflexivity|]. split; [reflexivity|].
  split; [|split].
  - unfold applyEvent, pageKey. simpl. rewrite S. reflexivity.
  - reflexivity.
  - reflexivity.
Qed.

End Keys.

(** The sort key [2] typed on the overlay: the table and the sort of the
    page stay as they were. *)
Lemma overlay_keys_leave_page_witness :
  exists st',
    applyEvent 120 40 "2" (picking "0.79") = Next st'
    /\ FavouritesTable (myPage st') = FavouritesTable (myPage (picking "0.79"))
    /\ favSortIdx st' = -1.
Proof.
  assert (S : selectCurrency (picking "0.79") = true) by reflexivity.
  destruct (applyEvent 120 40 "2" (picking "0.79")) as [st'| |] eqn:E;
    [|vm_compute in E; discriminate..].
  destruct (overlay_keys_leave_page 120 40 "2" (picking "0.79") st' S E)
    as (Hft & Hidx & _).
  exists st'. split; [reflexivity|]. split; [exact Hft|]. rewrite Hidx. reflexivity.
Defined.

(** From the state the loop starts with, [g] then [g]. *)
Lemma gg_scrolls_to_top_witness :
  exists st1 st2,
    applyEvent 120 40 "g" start = Next st1
    /\ previousKey st1 = "g"
    /\ applyEvent 120 40 "g" st1 = Next st2
    /\ previousKey st2 = "".
Proof.
  assert (S : selectCurrency start = false) by reflexivity.
  assert (Hg : previousKey start <> "g") by discriminate.
  destruct (gg_scrolls_to_top 120 40 start S Hg)
    as (st1 & st2 & E1 & _ & P1 & E2 & _ & P2).
  now exists st1, st2.
Defined.

Section PageUpdates.

Context `{GoLib} `{Utils} `{Collaborators}.

Lemma set_index_other {A : Type} (l l' : list A) i j v :
  set_index l i v = Some l' -> j <> i -> get_index l' j = get_index l j.
Proof.
  unfold set_index, get_index.
  destruct ((0 <=? i) && (i <? Z.of_nat (length l))) eqn:Hi; [|discriminate].
  intros [= <-] Hj. destruct (0 <=? j) eqn:Hlo; [|reflexivity].
  apply list_lookup_insert_ne. apply andb_prop in Hi as [Hi _]. lia.
Qed.

Lemma set_index_length {A : Type} (l l' : list A) i v :
  set_index l i v = Some l' -> length l' = length l.
Proof.
  unfold set_index. destruct (_ && _); [|discriminate].
  intros [= <-]. apply length_insert.
Qed.

Lemma set_index_Some {A : Type} (l : list A) i v :
  0 <= i < Z.of_nat (length l) -> exists l', set_index l i v = Some l'.
Proof.
  intros Hi. unfold set_index.
  destruct (0 <=? i) eqn:E1; [|lia]. destruct (i <? Z.of_nat (length l)) eqn:E2; [|lia].
  simpl. eauto.
Qed.

(** Writing one cell of a row leaves the other cells of the row. *)
Lemma set_cell_other rows rows' r c c' v :
  set_cell rows r c v = Some rows' -> c' <> c -> get_cell rows' r c' = get_cell rows r c'.
Proof.
  unfold set_cell, get_cell.
  destruct (get_index rows r) as [row|] eqn:R; simpl; [|discriminate].
  destruct (set_index row c v) as [row'|] eqn:Hc; simpl; [|discriminate].
  intros Hr Hne. rewrite (set_index_lookup _ _ _ _ Hr). simpl.
  exact (set_index_other _ _ _ _ _ Hc Hne).
Qed.

Lemma applyData_favourites data st st' :
  Type_ data = "FAVOURITES" -> applyData data st = Next st' ->
  exists st1, applyFavourites data st = Some st1 /\ resort st1 = Some st'.
Proof.
  unfold applyData. intros ->. simpl.
  destruct (applyFavourites data st) as [st1|]; simpl; [|discriminate].
  destruct (resort st1) as [st2|] eqn:R; simpl; [|discriminate].
  intros [= <-]. now exists st1.
Qed.

(** [favHeader] has two entries, built while the currency was the
    dollar. *)
Lemma favHeader_index idx title :
  get_index favHeader idx = Some title ->
  (idx = 0 /\ title = "Symbol") \/ (idx = 1 /\ title = Sprintf_header "USD $").
Proof.
  unfold get_index. destruct (0 <=? idx) eqn:E; [|discriminate].
  apply Z.leb_le in E.
  destruct (Z.to_nat idx) as [|[|n]] eqn:N; simpl; try discriminate;
    intros [= <-]; [left|right]; split; try reflexivity; lia.
Qed.

(** The sort rewrites the favourites table and nothing else. *)
Lemma resort_table st st' :
  resort st = Some st' ->
  exists ft, st' = with_myPage (with_FavouritesTable ft (myPage st)) st.
Proof.
  unfold resort. destruct (favSortIdx st =? -1).
  - intros [= <-]. eauto.
  - destruct (get_index favHeader (favSortIdx st)); simpl; [|discriminate].
    destruct (set_index _ _ _); simpl; [|discriminate].
    intros [= <-]. eauto.
Qed.

(** X10: the header of the price column after a snapshot of the
    favourites.  It names the active currency, except when the table is
    sorted on the price column: the sort then rewrites the header from
    [favHeader], which was built once for the dollar, so that the column
    reads ["Price (USD $)"] and the arrow whatever the active currency
    is. *)
Theorem price_header_names_usd_when_sorted (data : CoinData) (st st' : State) :
  Type_ data = "FAVOURITES" ->
  applyData data st = Next st' ->
  get_index (Header (FavouritesTable (myPage st'))) 1
  = Some (if favSortIdx st =? 1
          then Sprintf_header "USD $" +:+ " "
                 +:+ (if favSortAsc st then UP_ARROW else DOWN_ARROW)
          else Sprintf_header (currency st)).
Proof.
  intros HT HD.
  destruct (applyData_favourites _ _ _ HT HD) as (st1 & HA & HR).
  unfold applyFavourites in HA.
  destruct (set_index _ 1 _) as [header|] eqn:Hh; simpl in HA; [|discriminate].
  injection HA as <-. unfold resort in HR. simpl in HR.
  destruct (favSortIdx st =? -1) eqn:E1.
  - injection HR as <-. simpl. apply Z.eqb_eq in E1. rewrite E1. simpl.
    exact (set_index_lookup _ _ _ _ Hh).
  - destruct (get_index favHeader (favSortIdx st)) as [title|] eqn:Ht; simpl in HR;
      [|discriminate].
    destruct (set_index header _ _) as [header'|] eqn:Hh'; simpl in HR; [|discriminate].
    injection HR as <-. simpl.
    destruct (favHeader_index _ _ Ht) as [[Hi ->]|[Hi ->]]; rewrite Hi in *; simpl.
    + rewrite (set_index_other _ _ _ _ _ Hh') by lia.
      exact (set_index_lookup _ _ _ _ Hh).
    + exact (set_index_lookup _ _ _ _ Hh').
Qed.

(** X11: a snapshot replaces the rows of the favourites table.  When the
    sort of [pkg/utils] only reorders the rows it is given, the table
    shows after the snapshot exactly one row for each entry of the
    snapshot, the symbol and the price divided by the conversion factor
    with two decimals, and no row of what it showed before. *)
Theorem favourites_table_shows_snapshot (data : CoinData) (st st' : State) :
  (forall rows i asc t, SortData rows i asc t ≡ₚ rows) ->
  Type_ data = "FAVOURITES" ->
  applyData data st = Next st' ->
  length (Rows (FavouritesTable (myPage st'))) = size (Favourites data)
  /\ forall row,
       row ∈ Rows (FavouritesTable (myPage st'))
       <-> exists symbol price,
             Favourites data !! symbol = Some price
             /\ row = [symbol; Fmt.f2 (F64.div price (currencyVal st))].
Proof.
  intros Hsort HT HD.
  destruct (applyData_favourites _ _ _ HT HD) as (st1 & HA & HR).
  unfold applyFavourites in HA.
  destruct (set_index _ 1 _) as [header|] eqn:Hh; simpl in HA; [|discriminate].
  injection HA as <-.
  assert (HP : Rows (FavouritesTable (myPage st'))
               ≡ₚ favouriteRows (Favourites data) (currencyVal st)).
  { unfold resort in HR. simpl in HR. destruct (favSortIdx st =? -1).
    - injection HR as <-. simpl. apply Hsort.
    - destruct (get_index favHeader _); simpl in HR; [|discriminate].
      destruct (set_index header _ _); simpl in HR; [|discriminate].
      injection HR as <-. simpl. apply Hsort. }
  split.
  - rewrite HP. unfold favouriteRows. now rewrite length_fmap, length_map_to_list.
  - intros row. rewrite HP. unfold favouriteRows. rewrite list_elem_of_fmap. split.
    + intros ([symbol price] & -> & Hin). apply elem_of_map_to_list in Hin.
      now exists symbol, price.
    + intros (symbol & price & Hl & ->). exists (symbol, price).
      split; [reflexivity|]. now apply elem_of_map_to_list.
Qed.

(** X12: the two cells of the price box are written independently.  A
    price update writes the price cell, from the price whatever the
    parse said of it, and keeps the change cell; a detail record writes
    the change cell and keeps the price cell. *)
Theorem price_and_change_cells_independent (st : State) :
  (forall p st',
      applyPrice p st = Next st' ->
      get_cell (PriceBox_Rows (myPage st')) 0 0
      = Some (Sprintf_price (F64.div (ParseFloat p).1 (currencyVal st)) (currency st))
      /\ get_cell (PriceBox_Rows (myPage st')) 0 1
         = get_cell (PriceBox_Rows (myPage st)) 0 1)
  /\ (forall data st',
        Type_ data = "ASSET" ->
        applyData data st = Next st' ->
        get_cell (PriceBox_Rows (myPage st')) 0 0
        = get_cell (PriceBox_Rows (myPage st)) 0 0).
Proof.
  split.
  - intros p st'. unfold applyPrice.
    destruct (set_cell _ 0 0 _) as [rows|] eqn:E; simpl; [|discriminate].
    intros [= <-]. simpl. split.
    + exact (set_cell_get_cell _ _ _ _ _ E).
    + now apply (set_cell_other _ _ _ _ _ _ E).
  - intros data st' HT HD.
    destruct (applyData_asset _ _ _ HT HD) as (st1 & HA & HR).
    destruct (resort_keeps _ _ HR) as (_ & -> & _).
    revert HA. unfold applyAsset.
    destruct (ParseFloat (MarketCapUsd _)) as [mCap err]. simpl.
    destruct (marketCapString mCap err _ _) as [mCapStr|]; simpl; [|discriminate].
    destruct (ParseFloat (PriceUsd _)) as [price [e1|]];
      destruct (ParseFloat (Supply _)) as [supply [e2|]];
      try destruct (ParseFloat (MaxSupply _)) as [maxSupply [e3|]];
      try destruct (RoundValues supply maxSupply) as [supplyVals units]; simpl;
      (destruct (set_cell _ 0 1 _) as [box|] eqn:B; simpl; [|discriminate]);
      intros [= <-]; simpl; now apply (set_cell_other _ _ _ _ _ _ B).
Qed.

(** The page a detail record leaves, widget by widget. *)
Lemma applyAsset_fields data st st1 :
  applyAsset data st = Some st1 ->
  let a := Data (CoinAssetData data) in
  let p := myPage st in
  let p1 := myPage st1 in
  DetailsTable_Header p1 = ["Name"; Name a]
  /\ (exists mCapStr,
        marketCapString (ParseFloat (MarketCapUsd a)).1 (ParseFloat (MarketCapUsd a)).2
          (currencyVal st) (currency st) = Some mCapStr
        /\ DetailsTable_Rows p1
           = [ ["Symbol"; Symbol a]; ["Rank"; Rank a]; ["Market Cap"; mCapStr];
               ["VWAP 24Hr"; vwapString (Vwap24Hr a) (currencyVal st) (currency st)];
               ["Explorer"; Explorer a] ])
  /\ ValueGraph_Labels p1
     = match ParseFloat (PriceUsd a) with
       | (price, None) =>
           <["Value" := Sprintf_price (F64.div price (currencyVal st)) (currency st)]>
             (ValueGraph_Labels p)
       | (_, Some _) => ValueGraph_Labels p
       end
  /\ (SupplyChart_Data p1, SupplyChart_Title p1)
     = match ParseFloat (Supply a), ParseFloat (MaxSupply a) with
       | (supply, None), (maxSupply, None) =>
           ((RoundValues supply maxSupply).1,
            " Supply (" +:+ (RoundValues supply maxSupply).2 +:+ ") ")
       | _, _ => (SupplyChart_Data p, SupplyChart_Title p)
       end.
Proof.
  unfold applyAsset.
  destruct (ParseFloat (MarketCapUsd _)) as [mCap err]. cbn [fst snd].
  destruct (marketCapString mCap err _ _) as [mCapStr|]; cbn [mbind option_bind];
    [|discriminate].
  destruct (set_cell _ 0 1 _) as [box|]; cbn [mbind option_bind]; [|discriminate].
  intros [= <-]. cbn zeta.
  split; [|split; [|split]].
  - destruct (ParseFloat (Supply _)) as [supply [e2|]];
      try destruct (ParseFloat (MaxSupply _)) as [maxSupply [e3|]];
      try destruct (RoundValues supply maxSupply); reflexivity.
  - exists mCapStr. split; [reflexivity|].
    destruct (ParseFloat (Supply _)) as [supply [e2|]];
      try destruct (ParseFloat (MaxSupply _)) as [maxSupply [e3|]];
      try destruct (RoundValues supply maxSupply); reflexivity.
  - destruct (ParseFloat (Supply _)) as [supply [e2|]];
      try destruct (ParseFloat (MaxSupply _)) as [maxSupply [e3|]];
      try destruct (RoundValues supply maxSupply);
      destruct (ParseFloat (PriceUsd _)) as [price [e1|]]; reflexivity.
  - destruct (ParseFloat (Supply _)) as [supply [e2|]];
      try destruct (ParseFloat (MaxSupply _)) as [maxSupply [e3|]];
      try destruct (RoundValues supply maxSupply); reflexivity.
Qed.

(** X13: the fields of a detail record degrade one by one.  The details
    header is the name of the coin, and a field that does not parse
    leaves its own widget blank or as it was without stopping the
    update: an unparsed market cap or VWAP gives an empty cell, an
    unparsed price keeps the labels of the graph, an unparsed volume
    keeps the gauge, an unparsed supply or maximum supply keeps the
    supply chart, and an unparsed change shows ["NA"]. *)
Theorem asset_unparsable_fields_degrade (data : CoinData) (st st' : State) :
  Type_ data = "ASSET" ->
  applyData data st = Next st' ->
  let a := Data (CoinAssetData data) in
  let p := myPage st in
  let p' := myPage st' in
  DetailsTable_Header p' = ["Name"; Name a]
  /\ ((ParseFloat (MarketCapUsd a)).2 <> None ->
      DetailsTable_Rows p' !! 2%nat = Some ["Market Cap"; ""])
  /\ ((ParseFloat (Vwap24Hr a)).2 <> None ->
      DetailsTable_Rows p' !! 3%nat = Some ["VWAP 24Hr"; ""])
  /\ ((ParseFloat (PriceUsd a)).2 <> None -> ValueGraph_Labels p' = ValueGraph_Labels p)
  /\ ((ParseFloat (VolumeUsd24Hr a)).2 <> None ->
      VolumeGauge_Percent p' = VolumeGauge_Percent p)
  /\ ((ParseFloat (Supply a)).2 <> None \/ (ParseFloat (MaxSupply a)).2 <> None ->
      SupplyChart_Data p' = SupplyChart_Data p
      /\ SupplyChart_Title p' = SupplyChart_Title p)
  /\ ((ParseFloat (ChangePercent24Hr a)).2 <> None ->
      get_cell (PriceBox_Rows p') 0 1 = Some "NA").
Proof.
  intros HT HD a p p'.
  destruct (applyData_asset _ _ _ HT HD) as (st1 & HA & HR).
  destruct (applyAsset_page _ _ _ HA) as (Hgauge & Hcell).
  destruct (applyAsset_fields _ _ _ HA) as (Hhead & (mCapStr & Hcap & Hrows) & Hlab & Hsup).
  destruct (resort_table _ _ HR) as (ft & ->).
  unfold p', p. cbn [myPage with_myPage with_FavouritesTable DetailsTable_Header
    DetailsTable_Rows ValueGraph_Labels VolumeGauge_Percent SupplyChart_Data
    SupplyChart_Title PriceBox_Rows].
  fold a in Hgauge, Hcell, Hhead, Hcap, Hrows, Hlab, Hsup.
  split; [exact Hhead|]. split; [|split; [|split; [|split; [|split]]]].
  - intros He. rewrite Hrows. cbn [lookup list_lookup]. simpl.
    revert Hcap. unfold marketCapString.
    destruct (ParseFloat (MarketCapUsd a)) as [mCap [e|]]; [|now elim He].
    now intros [= <-].
  - intros He. rewrite Hrows. simpl. unfold vwapString.
    destruct (ParseFloat (Vwap24Hr a)) as [x [e|]]; [reflexivity|now elim He].
  - intros He. rewrite Hlab.
    destruct (ParseFloat (PriceUsd a)) as [x [e|]]; [reflexivity|now elim He].
  - intros He. rewrite Hgauge. unfold volumeGauge.
    destruct (ParseFloat (VolumeUsd24Hr a)) as [x [e|]]; [reflexivity|now elim He].
  - intros He. revert Hsup.
    destruct (ParseFloat (Supply a)) as [x [e|]];
      destruct (ParseFloat (MaxSupply a)) as [y [e'|]];
      try (intros [= -> ->]; now split).
    simpl in He. destruct He as [He|He]; now elim He.
  - intros He. rewrite Hcell. unfold changeIndicator.
    destruct (ParseFloat (ChangePercent24Hr a)) as [x [e|]]; [reflexivity|now elim He].
Qed.

End PageUpdates.

(** A snapshot applied to the page in euros that is sorted on its price
    column: the header of the column names the dollar. *)
Lemma price_header_names_usd_when_sorted_witness :
  currency euro_sorted_by_price = "EUR €"
  /\ exists st',
       applyData two_coins euro_sorted_by_price = Next st'
       /\ get_index (Header (FavouritesTable (myPage st'))) 1 = Some "Price (USD $) ▲".
Proof.
  split; [reflexivity|].
  destruct (applyData two_coins euro_sorted_by_price) as [st'| |] eqn:E;
    [|vm_compute in E; discriminate..].
  exists st'. split; [reflexivity|].
  rewrite (price_header_names_usd_when_sorted two_coins euro_sorted_by_price st' eq_refl E).
  reflexivity.
Defined.

(** A snapshot of two coins applied to the start page: two rows, and the
    row of the bitcoin among them. *)
Lemma favourites_table_shows_snapshot_witness :
  exists st',
    applyData two_coins start = Next st'
    /\ length (Rows (FavouritesTable (myPage st'))) = 2%nat
    /\ ["BTC"; "100.00"] ∈ Rows (FavouritesTable (myPage st')).
Proof.
  assert (Hsort : forall rows i asc t, SortData rows i asc t ≡ₚ rows) by reflexivity.
  assert (Hbtc : Favourites two_coins !! "BTC" = Some (F64.of_Z 100))
    by (vm_compute; reflexivity).
  assert (Hsize : size (Favourites two_coins) = 2%nat) by (vm_compute; reflexivity).
  assert (Hrow : ["BTC"; Fmt.f2 (F64.div (F64.of_Z 100) (currencyVal start))]
                 = ["BTC"; "100.00"]) by (vm_compute; reflexivity).
  destruct (applyData two_coins start) as [st'| |] eqn:E;
    [|vm_compute in E; discriminate..].
  destruct (favourites_table_shows_snapshot two_coins start st' Hsort eq_refl E)
    as [Hlen Hrows].
  exists st'. split; [reflexivity|]. split; [now rewrite Hlen|].
  apply Hrows. exists "BTC", (F64.of_Z 100). split; [exact Hbtc|]. now rewrite Hrow.
Defined.

(** A detail record none of whose numeric fields parses. *)
Lemma asset_unparsable_fields_degrade_witness :
  exists st',
    applyData (asset_of "n/a" "n/a" "n/a") (start_with_gauge 7) = Next st'
    /\ DetailsTable_Header (myPage st') = ["Name"; "Bitcoin"]
    /\ DetailsTable_Rows (myPage st') !! 2%nat = Some ["Market Cap"; ""]
    /\ VolumeGauge_Percent (myPage st') = 7
    /\ get_cell (PriceBox_Rows (myPage st')) 0 1 = Some "NA".
Proof.
  assert (Hn : (ParseFloat "n/a").2 <> None) by (vm_compute; discriminate).
  destruct (applyData (asset_of "n/a" "n/a" "n/a") (start_with_gauge 7))
    as [st'| |] eqn:E; [|vm_compute in E; discriminate..].
  destruct (asset_unparsable_fields_degrade (asset_of "n/a" "n/a" "n/a")
              (start_with_gauge 7) st' eq_refl E)
    as (Hhead & Hcap & _ & _ & Hvol & _ & Hchange).
  exists st'. split; [reflexivity|]. split; [exact Hhead|].
  split; [exact (Hcap Hn)|]. split; [rewrite (Hvol Hn); reflexivity|exact (Hchange Hn)].
Defined.

Section Currency.

Context `{GoLib} `{Utils} `{Collaborators}.

Lemma enter_commits w h st :
  selectCurrency st = true ->
  applyEvent w h "<Enter>" st = next_or_panic (commitCurrency st).
Proof.
  intros S. unfold applyEvent. simpl. rewrite S. reflexivity.
Qed.

(** X14: committing a currency whose rate parses.  The overlay closes,
    the label becomes the code and the symbol of the selected row and
    the factor its rate, whatever the rate is; no cell of the page is
    converted at that moment, and the next price update is divided by
    the new rate and carries the new label. *)
Theorem currency_commit_applies_to_next_price (w h : Z) (st : State)
  (row : list string) (r0 r1 r3 : string) (v : float64) :
  selectCurrency st = true ->
  get_index (Rows (currencyWidget st)) (SelectedRow (currencyWidget st)) = Some row ->
  get_index row 0 = Some r0 ->
  get_index row 1 = Some r1 ->
  get_index row 3 = Some r3 ->
  ParseFloat r3 = (v, None) ->
  exists st1,
    applyEvent w h "<Enter>" st = Next st1
    /\ selectCurrency st1 = false
    /\ currency st1 = r0 +:+ " " +:+ r1
    /\ currencyVal st1 = v
    /\ myPage st1 = myPage st
    /\ forall p st2,
         applyPrice p st1 = Next st2 ->
         get_cell (PriceBox_Rows (myPage st2)) 0 0
         = Some (Fmt.f2 (F64.div (ParseFloat p).1 v) +:+ " " +:+ r0 +:+ " " +:+ r1).
Proof.
  intros S Hrow H0' H1' H3' Hp.
  assert (Hlt : (SelectedRow (currencyWidget st)
                 <? Z.of_nat (length (Rows (currencyWidget st)))) = true).
  { revert Hrow. unfold get_index. destruct (0 <=? _) eqn:E; [|discriminate].
    intros Hl. apply lookup_lt_Some in Hl. apply Z.leb_le in E. apply Z.ltb_lt. lia. }
  exists (with_selectCurrency false (with_currency (r0 +:+ " " +:+ r1) v st)).
  split.
  { rewrite (enter_commits w h st S). unfold commitCurrency.
    rewrite Hlt, Hrow. simpl. rewrite H0'. simpl. rewrite H1'. simpl. rewrite H3'. simpl.
    now rewrite Hp. }
  repeat (split; [reflexivity|]).
  intros p st2. unfold applyPrice.
  destruct (set_cell _ 0 0 _) as [rows|] eqn:E; simpl; [|discriminate].
  intros [= <-]. simpl. exact (set_cell_get_cell _ _ _ _ _ E).
Qed.

(** X15: [<Enter>] on the overlay when the selected row is past the end
    of the list, as on an empty list: the overlay closes and the
    currency and its factor stay as they were. *)
Theorem currency_commit_without_row (w h : Z) (st : State) :
  selectCurrency st = true ->
  Z.of_nat (length (Rows (currencyWidget st))) <= SelectedRow (currencyWidget st) ->
  applyEvent w h "<Enter>" st = Next (with_selectCurrency false st).
Proof.
  intros S Hge. rewrite (enter_commits w h st S). unfold commitCurrency.
  replace (_ <? _) with false; [reflexivity|]. symmetry. apply Z.ltb_ge. exact Hge.
Qed.

(** X16: the gap between the bars of the supply chart on a terminal of
    [w] columns is [((w / 3) - 2 * BarWidth) / 2] with Go's truncating
    division, and it is not clamped: it is negative exactly when the
    terminal has fewer than [6 * BarWidth - 3] columns. *)
Theorem bar_gap_of_narrow_terminal (w h : Z) (st : State) :
  0 <= w ->
  let g := SupplyChart_BarGap (myPage (updateUI w h st)) in
  g = Z.quot (Z.quot w 3 - 2 * SupplyChart_BarWidth (myPage st)) 2
  /\ (g < 0 <-> w < 6 * SupplyChart_BarWidth (myPage st) - 3).
Proof.
  intros Hw g.
  assert (Hg : g = Z.quot (Z.quot w 3 - 2 * SupplyChart_BarWidth (myPage st)) 2).
  { unfold g, updateUI. simpl. now destruct (selectCurrency st). }
  split; [exact Hg|]. rewrite Hg.
  generalize (SupplyChart_BarWidth (myPage st)). intros bw.
  rewrite (Z.quot_div_nonneg w 3) by lia.
  pose proof (Z.quot_rem' (w / 3 - 2 * bw) 2) as Hq.
  pose proof (Z.div_mod w 3 ltac:(lia)) as Hd.
  pose proof (Z.mod_pos_bound w 3 ltac:(lia)) as Hm.
  destruct (Z_lt_le_dec (w / 3 - 2 * bw) 0) as [Hneg|Hpos].
  - pose proof (Z.rem_bound_pos_neg (w / 3 - 2 * bw) 2 ltac:(lia) ltac:(lia)) as Hr. lia.
  - pose proof (Z.rem_bound_pos (w / 3 - 2 * bw) 2 Hpos ltac:(lia)) as Hr. lia.
Qed.

End Currency.

(** The pound committed on the page in euros: the next price is shown in
    pounds while the page holds what it held. *)
Lemma currency_commit_applies_to_next_price_witness :
  exists st1,
    applyEvent 120 40 "<Enter>" (picking "0.5") = Next st1
    /\ currency st1 = "GBP £"
    /\ myPage st1 = myPage (picking "0.5")
    /\ exists st2,
         applyPrice "100" st1 = Next st2
         /\ get_cell (PriceBox_Rows (myPage st2)) 0 0 = Some "200.00 GBP £".
Proof.
  assert (Hp : ParseFloat "0.5" = ((ParseFloat "0.5").1, None)) by (vm_compute; reflexivity).
  destruct (currency_commit_applies_to_next_price 120 40 (picking "0.5")
              ["GBP"; "£"; "British Pound"; "0.5"] "GBP" "£" "0.5" _
              eq_refl eq_refl eq_refl eq_refl eq_refl Hp)
    as (st1 & E1 & _ & Hcur & Hval & Hpage & Hnext).
  exists st1. split; [exact E1|]. split; [exact Hcur|]. split; [exact Hpage|].
  assert (Hbox : PriceBox_Rows (myPage st1) = [[""; ""]]) by (rewrite Hpage; reflexivity).
  assert (E2 : exists st2, applyPrice "100" st1 = Next st2).
  { unfold applyPrice. rewrite Hbox. eexists. reflexivity. }
  destruct E2 as [st2 E2]. exists st2. split; [exact E2|].
  rewrite (Hnext "100" st2 E2). vm_compute. reflexivity.
Defined.

(** [<Enter>] on the overlay of the start state, whose list is empty. *)
Lemma currency_commit_without_row_witness :
  applyEvent 120 40 "<Enter>" (with_selectCurrency true start) = Next start.
Proof.
  assert (Hge : Z.of_nat (length (Rows (currencyWidget (with_selectCurrency true start))))
                <= SelectedRow (currencyWidget (with_selectCurrency true start)))
    by (vm_compute; discriminate).
  rewrite (currency_commit_without_row 120 40 (with_selectCurrency true start) eq_refl Hge).
  reflexivity.
Defined.

(** A terminal of 40 columns with bars of 8: the gap is -1. *)
Lemma bar_gap_of_narrow_terminal_witness :
  SupplyChart_BarGap (myPage (updateUI 40 12 start)) = -1
  /\ (SupplyChart_BarGap (myPage (updateUI 40 12 start)) < 0
      <-> 40 < 6 * SupplyChart_BarWidth (myPage start) - 3).
Proof.
  assert (Hw : 0 <= 40) by lia.
  destruct (bar_gap_of_narrow_terminal 40 12 start Hw) as [Hg Hiff].
  split; [rewrite Hg; reflexivity | exact Hiff].
Defined.

(** ** The loop indexes its widgets without a panic *)

Section NoPanic.

Context `{GoLib} `{Utils} `{Collaborators}.

Variable ctx_err : error.

(** What the loop relies on from its collaborators: the unit selection
    returns at least one value, and scrolling a table leaves its
    header. *)
Hypothesis RoundValues_nonempty : forall a b, (RoundValues a b).1 <> [].

Hypothesis Scroll_Header : forall s t, Header (Scroll s t) = Header t.

Lemma page_ok_spec st :
  page_ok st = true <->
  (exists a b rest others, PriceBox_Rows (myPage st) = (a :: b :: rest) :: others)
  /\ 2 <= Z.of_nat (length (Header (FavouritesTable (myPage st))))
  /\ (favSortIdx st = -1 \/ favSortIdx st = 0 \/ favSortIdx st = 1).
Proof.
  unfold page_ok. rewrite !andb_true_iff, !orb_true_iff, Z.leb_le, !Z.eqb_eq.
  split.
  - intros [[Hb Hh] Hs]. split; [|split; [exact Hh|tauto]].
    destruct (PriceBox_Rows (myPage st)) as [|[|a [|b rest]] others]; try discriminate.
    now exists a, b, rest, others.
  - intros [(a & b & rest & others & ->) [Hh Hs]]. split; [split; [reflexivity|exact Hh]|tauto].
Qed.

Lemma set_cell_change a b rest others v :
  set_cell ((a :: b :: rest) :: others) 0 1 v = Some ((a :: v :: rest) :: others).
Proof.
  assert (E : set_index (a :: b :: rest) 1 v = Some (a :: v :: rest)).
  { unfold set_index.
    assert (E : (1 <? Z.of_nat (length (a :: b :: rest))) = true)
      by (apply Z.ltb_lt; simpl length; lia).
    now rewrite E. }
  unfold set_cell. change (get_index ((a :: b :: rest) :: others) 0) with (Some (a :: b :: rest)).
  cbn [mbind option_bind]. rewrite E. reflexivity.
Qed.

Lemma resort_ok st :
  page_ok st = true ->
  exists st', resort st = Some st' /\ page_ok st' = true
              /\ selectCurrency st' = selectCurrency st.
Proof.
  rewrite page_ok_spec. intros (Hb & Hh & Hs). unfold resort.
  destruct (favSortIdx st =? -1) eqn:E.
  - eexists. split; [reflexivity|]. split; [|reflexivity]. apply page_ok_spec. simpl. auto.
  - apply Z.eqb_neq in E.
    assert (Ht : exists title, get_index favHeader (favSortIdx st) = Some title).
    { destruct Hs as [Hs|[Hs|Hs]]; [lia| |]; rewrite Hs; eexists; reflexivity. }
    destruct Ht as [title ->]. simpl.
    destruct (set_index_Some (Header (FavouritesTable (myPage st))) (favSortIdx st)
                (title +:+ " " +:+ (if favSortAsc st then UP_ARROW else DOWN_ARROW)))
      as [header Hhd]; [lia|].
    rewrite Hhd. simpl. eexists. split; [reflexivity|]. split; [|reflexivity].
    apply page_ok_spec. simpl. rewrite (set_index_length _ _ _ _ Hhd). auto.
Qed.

Lemma applyData_ok data st :
  page_ok st = true ->
  exists st', applyData data st = Next st' /\ page_ok st' = true
              /\ selectCurrency st' = selectCurrency st.
Proof.
  intros Hok.
  assert (Hst : exists st1,
    (if String.eqb (Type_ data) "FAVOURITES" then applyFavourites data st
     else if String.eqb (Type_ data) "HISTORY" then applyHistory data st
     else if String.eqb (Type_ data) "ASSET" then applyAsset data st
     else Some st) = Some st1 /\ page_ok st1 = true
    /\ selectCurrency st1 = selectCurrency st).
  { pose proof Hok as Hok'. apply page_ok_spec in Hok' as (Hb & Hh & Hs).
    destruct (String.eqb (Type_ data) "FAVOURITES").
    { unfold applyFavourites.
      destruct (set_index_Some (Header (FavouritesTable (myPage st))) 1
                  (Sprintf_header (currency st))) as [header Hhd]; [lia|].
      rewrite Hhd. simpl. eexists. split; [reflexivity|]. split; [|reflexivity].
      apply page_ok_spec. simpl. rewrite (set_index_length _ _ _ _ Hhd). auto. }
    destruct (String.eqb (Type_ data) "HISTORY").
    { eexists. split; [reflexivity|]. split; [|reflexivity].
      apply page_ok_spec. simpl. auto. }
    destruct (String.eqb (Type_ data) "ASSET"); [|now exists st].
    destruct Hb as (a & b & rest & others & Hb).
    unfold applyAsset.
    destruct (ParseFloat (MarketCapUsd _)) as [mCap err].
    assert (Hcap : exists s, marketCapString mCap err (currencyVal st) (currency st) = Some s).
    { unfold marketCapString. destruct err; [eauto|].
      pose proof (RoundValues_nonempty mCap F64.zero) as Hne.
      destruct (RoundValues mCap F64.zero) as [[|v vals] units]; [now elim Hne|].
      simpl. eauto. }
    destruct Hcap as [s ->]. cbn [mbind option_bind].
    match goal with
    | |- context [set_cell (PriceBox_Rows ?p3) 0 1 ?v] =>
        assert (Hp3 : PriceBox_Rows p3 = (a :: b :: rest) :: others);
        [|rewrite Hp3, set_cell_change]
    end.
    { destruct (ParseFloat (Supply _)) as [supply [e2|]];
        try destruct (ParseFloat (MaxSupply _)) as [maxSupply [e3|]];
        try destruct (RoundValues supply maxSupply); exact Hb. }
    cbn [mbind option_bind]. eexists. split; [reflexivity|]. split; [|reflexivity].
    apply page_ok_spec. cbn [myPage with_myPage with_PriceBox_Rows PriceBox_Rows favSortIdx].
    split; [eauto|]. split; [|exact Hs].
    destruct (ParseFloat (Supply _)) as [supply [e2|]];
      try destruct (ParseFloat (MaxSupply _)) as [maxSupply [e3|]];
      try destruct (RoundValues supply maxSupply); exact Hh. }
  destruct Hst as (st1 & E1 & Hok1 & S1).
  destruct (resort_ok st1 Hok1) as (st' & E2 & Hok2 & S2).
  exists st'. split; [|split; [exact Hok2|congruence]].
  unfold applyData. rewrite E1. simpl. now rewrite E2.
Qed.

Lemma applyPrice_ok p st :
  page_ok st = true ->
  exists st', applyPrice p st = Next st' /\ page_ok st' = true
              /\ selectCurrency st' = selectCurrency st.
Proof.
  intros Hok. pose proof Hok as Hok'. apply page_ok_spec in Hok' as (Hb & Hh & Hs).
  destruct Hb as (a & b & rest & others & Hb).
  unfold applyPrice. rewrite Hb. eexists. split; [reflexivity|]. split; [|reflexivity].
  apply page_ok_spec. simpl. eauto 10.
Qed.

Lemma updateUI_ok w h st :
  page_ok st = true ->
  page_ok (updateUI w h st) = true /\ selectCurrency (updateUI w h st) = selectCurrency st.
Proof.
  rewrite !page_ok_spec. unfold updateUI. simpl.
  destruct (selectCurrency st) eqn:S; simpl; now rewrite ?S.
Qed.

Lemma sort_of_key_column k idx asc :
  sort_of_key k = Some (idx, asc) -> idx = 0 \/ idx = 1.
Proof.
  unfold sort_of_key.
  repeat (destruct (String.eqb k _); [intros [= <- <-]; auto|]). discriminate.
Qed.

Lemma pageKey_ok k st :
  page_ok st = true ->
  exists st', pageKey k st = Some st' /\ page_ok st' = true
              /\ selectCurrency st' = selectCurrency st.
Proof.
  intros Hok. pose proof Hok as Hok'. apply page_ok_spec in Hok' as (Hb & Hh & Hs).
  unfold pageKey. destruct (scroll_of_key (previousKey st) k) as [s|].
  - cbn [mbind option_bind]. eexists. split; [reflexivity|]. split; [|reflexivity].
    apply page_ok_spec. simpl. rewrite Scroll_Header. simpl. auto.
  - destruct (sort_of_key k) as [[idx asc]|] eqn:K.
    + destruct (sort_of_key_column _ _ _ K) as [-> | ->];
        (cbn [mbind option_bind]; eexists; split; [reflexivity|]; split; [|reflexivity];
         apply page_ok_spec; simpl; split; [exact Hb|]; split; [lia|auto]).
    + cbn [mbind option_bind]. eexists. split; [reflexivity|]. split; [|reflexivity].
      apply page_ok_spec. simpl. auto.
Qed.

Lemma applyEvent_ok w h k st :
  page_ok st = true ->
  selectCurrency st = false ->
  opens_overlay (UiEvent k) = false ->
  match applyEvent w h k st with
  | Next st' => page_ok st' = true /\ selectCurrency st' = false
  | Return e => e = Err "UI Closed" \/ e = Err "coin UI Closed"
  | Panic => False
  end.
Proof.
  intros Hok S Hk. simpl in Hk. apply orb_false_elim in Hk as [Hc HC].
  unfold applyEvent. rewrite Hc, HC, S. unfold key_in. simpl.
  destruct (String.eqb k "<Escape>"); simpl; [auto|].
  destruct (String.eqb k "q"); simpl; [auto|].
  destruct (String.eqb k "<C-c>"); simpl; [auto|].
  destruct (String.eqb k "<Resize>").
  - destruct (updateUI_ok w h st Hok) as [Hok1 S1]. rewrite S1, S.
    destruct (pageKey_ok k _ Hok1) as (st' & -> & Hok' & S').
    simpl. split; [exact Hok'|congruence].
  - rewrite S. destruct (pageKey_ok k _ Hok) as (st' & -> & Hok' & S').
    simpl. split; [exact Hok'|congruence].
Qed.

(** X17: as long as the currency overlay is not opened, the loop does not
    panic.  On a page whose price box has its two cells and whose
    favourites table has its two headers, with collaborators that return
    a value to show and scroll without touching the header, every
    sequence of price updates, data results of any type and content,
    refresh ticks and keys other than [c] and [C] leaves such a page, or
    ends [DisplayCoin] with the cancellation reason or with one of its
    two closing messages. *)
Theorem loop_never_panics_outside_overlay (w h : Z) (inputs : list input) (st : State) :
  page_ok st = true ->
  selectCurrency st = false ->
  forallb (fun i => negb (opens_overlay i)) inputs = true ->
  match loop ctx_err w h inputs st with
  | Next st' => page_ok st' = true /\ selectCurrency st' = false
  | Return e => e = ctx_err \/ e = Err "UI Closed" \/ e = Err "coin UI Closed"
  | Panic => False
  end.
Proof.
  revert st. induction inputs as [|i rest IH]; intros st Hok S Hin; [now split|].
  simpl in Hin. apply andb_prop in Hin as [Hi Hrest]. apply negb_true_iff in Hi.
  simpl. destruct i as [|k|p|data|]; simpl.
  - auto.
  - pose proof (applyEvent_ok w h k st Hok S Hi) as Hev.
    destruct (applyEvent w h k st) as [st'|e|]; [|tauto|exact Hev].
    destruct Hev as [Hok' S']. exact (IH st' Hok' S' Hrest).
  - destruct (applyPrice_ok p st Hok) as (st' & -> & Hok' & S').
    apply IH; [exact Hok'|congruence|exact Hrest].
  - destruct (applyData_ok data st Hok) as (st' & -> & Hok' & S').
    apply IH; [exact Hok'|congruence|exact Hrest].
  - destruct (updateUI_ok w h st Hok) as [Hok' S'].
    apply IH; [exact Hok'|congruence|exact Hrest].
Qed.

End NoPanic.

(** A session on the start page: a price, a detail record with a field
    that does not parse, a sort on the price column, a snapshot, a
    result of an unknown type, a refresh, then [q]. *)
Lemma loop_never_panics_outside_overlay_witness :
  page_ok start = true
  /\ loop Canceled 120 40
       [ PriceUpdate "29000.5"; DataUpdate (asset_of "n/a" "500" "-3.25"); UiEvent "2";
         DataUpdate two_coins; DataUpdate (favouritesData []); RefreshTick; UiEvent "q" ]
       start
     <> Panic.
Proof.
  assert (Hround : forall a b : float64, (RoundValues a b).1 <> []) by discriminate.
  assert (Hscroll : forall s t, Header (Scroll s t) = Header t) by reflexivity.
  assert (Hok : page_ok start = true) by (vm_compute; reflexivity).
  split; [exact Hok|].
  pose proof (loop_never_panics_outside_overlay Canceled Hround Hscroll 120 40
                [ PriceUpdate "29000.5"; DataUpdate (asset_of "n/a" "500" "-3.25");
                  UiEvent "2"; DataUpdate two_coins; DataUpdate (favouritesData []);
                  RefreshTick; UiEvent "q" ]
                start Hok eq_refl eq_refl) as Hloop.
  intros E. rewrite E in Hloop. exact Hloop.
Defined.

(** ** Updates received while the overlay is shown *)

Section Overlay.

Context `{GoLib} `{Utils} `{Collaborators}.

Lemma resort_overlay b st :
  resort (with_selectCurrency b st) = with_selectCurrency b <$> resort st.
Proof.
  unfold resort. cbn [myPage favSortIdx favSortAsc with_selectCurrency].
  destruct (favSortIdx st =? -1); [reflexivity|].
  destruct (get_index favHeader (favSortIdx st)); [|reflexivity]. cbn [mbind option_bind].
  destruct (set_index _ _ _); reflexivity.
Qed.

(** X18: the overlay hides the page and does not freeze it.  A price
    update or a data result changes the state in the same way whether
    the currency overlay is shown or not, panics included: only the
    rendering depends on the overlay, so that nothing received while the
    user picks a currency is lost. *)
Theorem updates_reach_page_under_overlay (b : bool) (st : State) :
  (forall p, applyPrice p (with_selectCurrency b st) = with_overlay b (applyPrice p st))
  /\ (forall data,
        applyData data (with_selectCurrency b st) = with_overlay b (applyData data st)).
Proof.
  split.
  - intros p. unfold applyPrice. cbn [myPage currency currencyVal with_selectCurrency].
    destruct (set_cell _ 0 0 _); reflexivity.
  - intros data. unfold applyData.
    assert (Hst :
      (if String.eqb (Type_ data) "FAVOURITES"
       then applyFavourites data (with_selectCurrency b st)
       else if String.eqb (Type_ data) "HISTORY"
       then applyHistory data (with_selectCurrency b st)
       else if String.eqb (Type_ data) "ASSET"
       then applyAsset data (with_selectCurrency b st)
       else Some (with_selectCurrency b st))
      = with_selectCurrency b <$>
          (if String.eqb (Type_ data) "FAVOURITES" then applyFavourites data st
           else if String.eqb (Type_ data) "HISTORY" then applyHistory data st
           else if String.eqb (Type_ data) "ASSET" then applyAsset data st
           else Some st)).
    { destruct (String.eqb (Type_ data) "FAVOURITES").
      { unfold applyFavourites. cbn [myPage currency currencyVal with_selectCurrency].
        destruct (set_index _ 1 _); reflexivity. }
      destruct (String.eqb (Type_ data) "HISTORY"); [reflexivity|].
      destruct (String.eqb (Type_ data) "ASSET"); [|reflexivity].
      unfold applyAsset. cbn [myPage currency currencyVal with_selectCurrency].
      destruct (ParseFloat (MarketCapUsd _)) as [mCap err].
      destruct (marketCapString mCap err _ _); [|reflexivity]. cbn [mbind option_bind].
      destruct (set_cell _ 0 1 _); reflexivity. }
    rewrite Hst.
    destruct (if String.eqb (Type_ data) "FAVOURITES" then applyFavourites data st
              else if String.eqb (Type_ data) "HISTORY" then applyHistory data st
              else if String.eqb (Type_ data) "ASSET" then applyAsset data st
              else Some st) as [st1|]; [|reflexivity].
    cbn [fmap option_fmap option_map mbind option_bind]. rewrite resort_overlay.
    destruct (resort st1); reflexivity.
Qed.

End Overlay.
